(** * keepsake-mcp: the request-translation layer of [src/index.ts]

    A shallow embedding of the HTTP helper [fetchApi], the content renderer
    [toContent], the query-string builder [qs] and the tool handlers that
    are built from them, followed by the properties the specification
    states about them.

    Conventions of the embedding.
    - A JavaScript value is a term of [value].  [VNumber n] stands for the
      integer [n] (every numeric tool argument is declared
      [z.number().int()]); it prints in plain decimal, which is what
      [Number::toString] gives for the safe integers, below 2^53 in
      absolute value.  Larger integers and fractions are outside the model.
    - A string is held as the bytes of its UTF-8 encoding.  A lone
      surrogate, which has none, is held as the three bytes of the
      generalised encoding: ED, then a byte from A0 to BF, then a
      continuation byte.  A surrogate pair is a supplementary character and
      is held as its four bytes, so the byte ED followed by A0..BF always
      marks a lone surrogate: there [encodeURIComponent] throws and the
      JSON quoting writes an escape.
    - An evaluation that may throw has a [Completion] as its result:
      [ToString] throws on an object that owns a [toString] property
      (which a parsed JSON object can; such a property is never callable),
      [encodeURIComponent] on a lone surrogate, and a property read on
      [null] or [undefined].
    - An object is the list of its own enumerable properties in enumeration
      order: the order [Object.entries], the rest pattern and
      [JSON.stringify] all walk.  For an object literal whose keys are
      identifiers (every caller in the file) this is the order in which the
      literal lists them. *)

From Stdlib Require Import List String Ascii ZArith Bool Lia DecimalString.
Import ListNotations.
Local Open Scope list_scope.
Local Open Scope string_scope.

Set Warnings "-register-all".

(* ------------------------------------------------------------------ *)
(** ** Exceptions and completions                                      *)
(* ------------------------------------------------------------------ *)

(** A thrown [Error] object: what [fetch] and [res.json()] reject with
    ([TypeError], [SyntaxError], ...) and what a property read on [null]
    throws. *)
Record JsError : Type := mkError {
  err_name : string;
  err_message : string
}.

(** [String(err)] on an [Error]: [Error.prototype.toString]. *)
Definition String_error (e : JsError) : string :=
  if err_name e =? "" then err_message e
  else if err_message e =? "" then err_name e
  else err_name e ++ ": " ++ err_message e.

Definition TypeError (msg : string) : JsError := mkError "TypeError" msg.

Definition URIError (msg : string) : JsError := mkError "URIError" msg.

(** The outcome of evaluating an expression or awaiting a promise. *)
Inductive Completion (A : Type) : Type :=
| Return (a : A)
| Throw (e : JsError).

Arguments Return {A} a.
Arguments Throw {A} e.

(** Evaluate [c], then [k] on its value; a throw of [c] is the throw of
    the whole. *)
Definition and_then {A B : Type} (c : Completion A) (k : A -> Completion B)
  : Completion B :=
  match c with
  | Return a => k a
  | Throw e => Throw e
  end.

Declare Scope completion_scope.
Delimit Scope completion_scope with completion.
Notation "x <~ c ;; k" := (and_then c (fun x => k))
  (at level 61, c at next level, right associativity) : completion_scope.

(** The elements of [l] evaluated from left to right. *)
Fixpoint sequence {A : Type} (l : list (Completion A)) : Completion (list A) :=
  match l with
  | [] => Return []
  | c :: rest =>
      and_then c (fun a =>
      and_then (sequence rest) (fun others => Return (a :: others)))
  end.

(* ------------------------------------------------------------------ *)
(** ** JavaScript values                                               *)
(* ------------------------------------------------------------------ *)

Module Js.

Inductive value : Type :=
| VUndefined
| VNull
| VBool (b : bool)
| VNumber (n : Z)
| VString (s : string)
| VArray (items : list value)
| VObject (props : list (string * value)).

Definition Props := list (string * value).

(** [ToBoolean]: what [if (v)], [v ? a : b], [v && w] and [v || w] test. *)
Definition truthy (v : value) : bool :=
  match v with
  | VUndefined | VNull => false
  | VBool b => b
  | VNumber n => negb (n =? 0)%Z
  | VString s => negb (s =? "")
  | VArray _ | VObject _ => true
  end.

(** What [v ?? w] tests. *)
Definition nullish (v : value) : bool :=
  match v with
  | VUndefined | VNull => true
  | _ => false
  end.

(** [typeof v === "string"]. *)
Definition is_string (v : value) : bool :=
  match v with
  | VString _ => true
  | _ => false
  end.

(** [v === ""]. *)
Definition is_empty_string (v : value) : bool :=
  match v with
  | VString s => s =? ""
  | _ => false
  end.

(** Own-property lookup in a property list. *)
Fixpoint lookup (k : string) (o : Props) : option value :=
  match o with
  | [] => None
  | (k', v) :: o' => if k' =? k then Some v else lookup k o'
  end.

(** [o.k] on an object: a missing property reads as [undefined]. *)
Definition get (o : Props) (k : string) : value :=
  match lookup k o with
  | Some v => v
  | None => VUndefined
  end.

(** [Array.prototype.join] on already converted pieces. *)
Fixpoint join (sep : string) (parts : list string) : string :=
  match parts with
  | [] => ""
  | [p] => p
  | p :: rest => p ++ sep ++ join sep rest
  end.

(** [Number::toString] on an integer. *)
Definition number_to_string (n : Z) : string :=
  NilZero.string_of_int (Z.to_int n).

(** [ToString], as applied by [String(v)] and by a template literal.  An
    array joins its elements with a comma, [null] and [undefined] elements
    giving the empty string.  An object is converted by its [toString]
    method: the inherited one gives "[object Object]", but an own
    [toString] property hides it and, being data, cannot be called, and
    the inherited [valueOf] returns the object itself: nothing primitive
    comes out and the conversion throws. *)
Fixpoint ToString (v : value) : Completion string :=
  match v with
  | VUndefined => Return "undefined"
  | VNull => Return "null"
  | VBool true => Return "true"
  | VBool false => Return "false"
  | VNumber n => Return (number_to_string n)
  | VString s => Return s
  | VArray items =>
      and_then
        (sequence (map (fun x => if nullish x then Return "" else ToString x)
                       items))
        (fun pieces => Return (join "," pieces))
  | VObject props =>
      match lookup "toString" props with
      | Some _ => Throw (TypeError "Cannot convert object to primitive value")
      | None => Return "[object Object]"
      end
  end.

End Js.
Export Js.

(* ------------------------------------------------------------------ *)
(** ** Hexadecimal digits and the two escaping functions               *)
(* ------------------------------------------------------------------ *)

Definition hex_digit (upper : bool) (d : nat) : ascii :=
  match d with
  | 0 => "0" | 1 => "1" | 2 => "2" | 3 => "3" | 4 => "4"
  | 5 => "5" | 6 => "6" | 7 => "7" | 8 => "8" | 9 => "9"
  | 10 => if upper then "A" else "a"
  | 11 => if upper then "B" else "b"
  | 12 => if upper then "C" else "c"
  | 13 => if upper then "D" else "d"
  | 14 => if upper then "E" else "e"
  | _ => if upper then "F" else "f"
  end%char.

Definition in_range (lo hi n : nat) : bool :=
  (lo <=? n)%nat && (n <=? hi)%nat.

(** The characters [encodeURIComponent] leaves alone: letters, digits and
    [- _ . ! ~ * ' ( )]. *)
Definition uri_unreserved (c : ascii) : bool :=
  let n := nat_of_ascii c in
  in_range 65 90 n || in_range 97 122 n || in_range 48 57 n ||
  existsb (Nat.eqb n) [45; 95; 46; 33; 126; 42; 39; 40; 41].

(** One octet of the UTF-8 encoding, percent-escaped with upper-case
    digits. *)
Definition percent_octet (c : ascii) : string :=
  let n := nat_of_ascii c in
  String "%" (String (hex_digit true (n / 16))
                     (String (hex_digit true (n mod 16)) "")).

(** Whether the byte [c], followed by [rest], starts a lone surrogate. *)
Definition lone_surrogate_at (c : ascii) (rest : string) : bool :=
  (nat_of_ascii c =? 237)%nat
  && match rest with
     | String c2 _ => in_range 160 191 (nat_of_ascii c2)
     | EmptyString => false
     end.

(** [encodeURIComponent]: every octet of the UTF-8 encoding is kept when
    unreserved and escaped otherwise; a lone surrogate has no UTF-8
    encoding and the function throws. *)
Fixpoint encodeURIComponent (s : string) : Completion string :=
  match s with
  | EmptyString => Return ""
  | String c rest =>
      if lone_surrogate_at c rest
      then Throw (URIError "URI malformed")
      else and_then (encodeURIComponent rest) (fun encoded =>
           Return ((if uri_unreserved c then String c "" else percent_octet c)
                     ++ encoded))
  end.

Definition dquote_char : ascii := ascii_of_nat 34.

Definition backslash_char : ascii := ascii_of_nat 92.

(** [QuoteJSONString], one character at a time. *)
Definition json_escape_char (c : ascii) : string :=
  let n := nat_of_ascii c in
  match n with
  | 8 => "\b"
  | 9 => "\t"
  | 10 => "\n"
  | 12 => "\f"
  | 13 => "\r"
  | 34 => String backslash_char (String dquote_char "")
  | 92 => "\\"
  | _ =>
      if (n <? 32)%nat
      then "\u00" ++ String (hex_digit false (n / 16))
                            (String (hex_digit false (n mod 16)) "")
      else String c ""
  end.

(** The code unit of the lone surrogate whose second and third bytes are
    [c2] and [c3]. *)
Definition surrogate_code_unit (c2 c3 : ascii) : N :=
  (53248 + (N_of_ascii c2 - 128) * 64 + (N_of_ascii c3 - 128))%N.

(** [UnicodeEscape]: backslash, u and four lower-case digits. *)
Definition unicode_escape (n : N) : string :=
  "\u" ++ String (hex_digit false (N.to_nat (n / 4096)))
          (String (hex_digit false (N.to_nat ((n / 256) mod 16)))
          (String (hex_digit false (N.to_nat ((n / 16) mod 16)))
          (String (hex_digit false (N.to_nat (n mod 16))) ""))).

Fixpoint json_escape (s : string) : string :=
  match s with
  | EmptyString => ""
  | String c rest =>
      match rest with
      | String c2 (String c3 rest') =>
          if lone_surrogate_at c rest
          then unicode_escape (surrogate_code_unit c2 c3) ++ json_escape rest'
          else json_escape_char c ++ json_escape rest
      | _ => json_escape_char c ++ json_escape rest
      end
  end.

Definition dquote : string := String dquote_char "".

(** The line feed that separates the lines of an indented encoding. *)
Definition nl : string := String (ascii_of_nat 10) "".

Definition QuoteJSONString (s : string) : string :=
  dquote ++ json_escape s ++ dquote.

(* ------------------------------------------------------------------ *)
(** ** [JSON.stringify]                                                *)
(* ------------------------------------------------------------------ *)

(** [SerializeJSONProperty] with the indentation unit [gap] and the current
    indentation [indent].  [None] is the [undefined] that the algorithm
    returns for an [undefined] value: such a property is left out of an
    object and printed as [null] inside an array. *)
Fixpoint SerializeJSON (gap indent : string) (v : value) : option string :=
  match v with
  | VUndefined => None
  | VNull => Some "null"
  | VBool true => Some "true"
  | VBool false => Some "false"
  | VNumber n => Some (number_to_string n)
  | VString s => Some (QuoteJSONString s)
  | VArray items =>
      let stepback := indent in
      let indent := indent ++ gap in
      let partial :=
        map (fun x => match SerializeJSON gap indent x with
                      | Some str => str
                      | None => "null"
                      end) items in
      Some (match partial with
            | [] => "[]"
            | _ =>
                if gap =? ""
                then "[" ++ join "," partial ++ "]"
                else "[" ++ nl ++ indent
                         ++ join ("," ++ nl ++ indent) partial
                         ++ nl ++ stepback ++ "]"
            end)
  | VObject props =>
      let stepback := indent in
      let indent := indent ++ gap in
      let partial :=
        flat_map (fun kv => match SerializeJSON gap indent (snd kv) with
                            | Some str =>
                                [QuoteJSONString (fst kv) ++ ":"
                                   ++ (if gap =? "" then "" else " ") ++ str]
                            | None => []
                            end) props in
      Some (match partial with
            | [] => "{}"
            | _ =>
                if gap =? ""
                then "{" ++ join "," partial ++ "}"
                else "{" ++ nl ++ indent
                         ++ join ("," ++ nl ++ indent) partial
                         ++ nl ++ stepback ++ "}"
            end)
  end.

(** [JSON.stringify(v)]. *)
Definition JSON_stringify (v : value) : option string :=
  SerializeJSON "" "" v.

(** [JSON.stringify(v, null, 2)]. *)
Definition JSON_stringify_pretty (v : value) : option string :=
  SerializeJSON "  " "" v.



(* ------------------------------------------------------------------ *)
(** ** The content renderer and the query-string builder               *)
(* ------------------------------------------------------------------ *)

(** [{ type: "text", text }]; [text] is [None] when the expression that
    fills it evaluates to [undefined]. *)
Record TextBlock : Type := mkBlock {
  type : string;
  text : option string
}.

(** [{ content: [...] }]. *)
Record RenderedContent : Type := mkContent {
  content : list TextBlock
}.

(** [v.k] for one of the names read by [toContent] ([error], [data],
    [message]) on a value that is neither [null] nor [undefined]: a
    primitive or an array has no such property. *)
Definition member (v : value) (k : string) : value :=
  match v with
  | VObject o => get o k
  | _ => VUndefined
  end.

(** [v === undefined] and [v === null]. *)
Definition is_undefined (v : value) : bool :=
  match v with
  | VUndefined => true
  | _ => false
  end.

Definition is_null (v : value) : bool :=
  match v with
  | VNull => true
  | _ => false
  end.

(** [a || b] on values. *)
Definition js_or (a b : value) : value := if truthy a then a else b.

(** [a ?? b] on values. *)
Definition js_coalesce (a b : value) : value := if nullish a then b else a.

Definition string_or_undefined (o : option string) : value :=
  match o with
  | Some s => VString s
  | None => VUndefined
  end.

(** [toContent]: lines 59-70.  Reading [result.error] throws when [result]
    is [null] or [undefined]. *)
Definition toContent (result : value) : Completion RenderedContent :=
  if nullish result
  then Throw (TypeError ("Cannot read properties of "
                           ++ (if is_null result then "null" else "undefined")
                           ++ " (reading 'error')"))
  else
    if truthy (member result "error")
    then
      let msg :=
        if is_string (member result "error")
        then member result "error"
        else js_or (member (member result "error") "message")
                   (string_or_undefined (JSON_stringify (member result "error"))) in
      and_then (ToString msg) (fun shown =>
      Return (mkContent [mkBlock "text" (Some ("Error: " ++ shown))]))
    else
      Return (mkContent
                [mkBlock "text"
                   (JSON_stringify_pretty
                      (js_coalesce (member result "data") result))]).

(** [Object.entries]: the own enumerable properties in enumeration order,
    which is how a [Props] holds them. *)
Definition Object_entries (o : Props) : list (string * value) := o.

(** The test [v !== undefined && v !== null && v !== ...] of [qs], the
    last operand being the empty string. *)
Definition qs_keeps (v : value) : bool :=
  negb (is_undefined v) && negb (is_null v) && negb (is_empty_string v).

(** One iteration of the loop of [qs]: [parts.push(...)] under the test.
    The template literal evaluates [encodeURIComponent(k)], then
    [String(v)], then [encodeURIComponent] of that; a throw ends the
    loop. *)
Definition qs_step (parts : Completion (list string)) (kv : string * value)
  : Completion (list string) :=
  and_then parts (fun parts =>
  let (k, v) := kv in
  if qs_keeps v
  then and_then (encodeURIComponent k) (fun key =>
       and_then (ToString v) (fun shown =>
       and_then (encodeURIComponent shown) (fun val =>
       Return (List.app parts [key ++ "=" ++ val]))))
  else Return parts).

(** [qs]: lines 73-81. *)
Definition qs (params : Props) : Completion string :=
  and_then (fold_left qs_step (Object_entries params) (Return [])) (fun parts =>
  Return (if (List.length parts =? 0)%nat then "" else "?" ++ join "&" parts)).



(* ------------------------------------------------------------------ *)
(** ** Configuration, requests and the transport                       *)
(* ------------------------------------------------------------------ *)

(** The two variables read from [process.env]; [None] is [undefined]. *)
Record Env : Type := mkEnv {
  KEEPSAKE_API_URL : option string;
  KEEPSAKE_API_KEY : option string
}.

(** [process.env.X || fallback]. *)
Definition env_or (x : option string) (fallback : string) : string :=
  match x with
  | Some s => if s =? "" then fallback else s
  | None => fallback
  end.

Definition API_BASE (env : Env) : string :=
  env_or (KEEPSAKE_API_URL env) "https://app.keepsake.place/api/v1".

Definition API_KEY (env : Env) : string :=
  env_or (KEEPSAKE_API_KEY env) "".

(** The [RequestInit] handed to [fetch]; [init_body] is [None] while the
    [body] property has not been assigned. *)
Record RequestInit : Type := mkInit {
  init_method : string;
  init_headers : list (string * string);
  init_body : option string
}.

(** One call of [fetch], as the transport sees it. *)
Record Request : Type := mkRequest {
  req_url : string;
  req_init : RequestInit
}.

(** What the code reads of a [Response]: nothing of the status, and the
    outcome of awaiting [res.json()], which rejects when the body is not
    JSON. *)
Record Response : Type := mkResponse {
  res_status : Z;
  res_json : Completion value
}.

(** An asynchronous computation of the server: it may call [fetch], so it
    extends the list of the calls issued so far, and it completes normally
    or abruptly. *)
Definition M (A : Type) : Type := list Request -> Completion A * list Request.

Definition ret {A} (a : A) : M A := fun log => (Return a, log).

Definition throw {A} (e : JsError) : M A := fun log => (Throw e, log).

Definition bind {A B} (m : M A) (k : A -> M B) : M B :=
  fun log =>
    match m log with
    | (Return a, log') => k a log'
    | (Throw e, log') => (Throw e, log')
    end.

(** [try { m } catch (err) { handler err }]. *)
Definition try_catch {A} (m : M A) (handler : JsError -> M A) : M A :=
  fun log =>
    match m log with
    | (Return a, log') => (Return a, log')
    | (Throw e, log') => handler e log'
    end.

(** A synchronous evaluation or the await of an already settled promise. *)
Definition lift {A} (c : Completion A) : M A := fun log => (c, log).

Declare Scope js_scope.
Delimit Scope js_scope with js.
Notation "x <- m ;; k" := (bind m (fun x => k))
  (at level 61, m at next level, right associativity) : js_scope.
Local Open Scope js_scope.

Definition NETWORK_ERROR (message : string) : value :=
  VObject [("error", VObject [("code", VString "NETWORK_ERROR");
                              ("message", VString message)])].

Section Server.

(** The environment the process was started in. *)
Variable env : Env.

(** The transport: how awaiting [fetch(url, init)] settles. *)
Variable transport : string -> RequestInit -> Completion Response.

(** [await fetch(url, init)]. *)
Definition fetch (url : string) (init : RequestInit) : M Response :=
  fun log => (transport url init, List.app log [mkRequest url init]).

Definition request_headers : list (string * string) :=
  [("Authorization", "Bearer " ++ API_KEY env);
   ("Content-Type", "application/json")].

(** The [init] that [fetchApi] builds: lines 44-47.  [method] is the
    parameter after its default was applied. *)
Definition build_init (method : string) (body : value) : RequestInit :=
  let init := mkInit method request_headers None in
  if truthy body && negb (method =? "GET")
  then mkInit (init_method init) (init_headers init) (JSON_stringify body)
  else init.

(** [fetchApi]: lines 33-56.  [method] is [None] and [body] is
    [VUndefined] when the caller leaves the argument out. *)
Definition fetchApi (path : string) (method : option string) (body : value)
  : M value :=
  let method := match method with Some m => m | None => "GET" end in
  let url := API_BASE env ++ path in
  let init := build_init method body in
  try_catch
    (res <- fetch url init ;;
     json <- lift (res_json res) ;;
     ret json)
    (fun err => ret (NETWORK_ERROR (String_error err))).

(** [toContent(await fetchApi(path, method, body))], the body of every
    handler. *)
Definition respond (path : string) (method : option string) (body : value)
  : M RenderedContent :=
  result <- fetchApi path method body ;;
  lift (toContent result).

(** *** Tool handlers

    A handler receives the validated arguments as an object and
    destructures it: a name that the object lacks is bound to
    [undefined]. *)

Definition Handler : Type := Props -> M RenderedContent.

(** The rest pattern [{ k, ...rest }]: the own enumerable properties
    other than [k], in order. *)
Definition omit (k : string) (o : Props) : Props :=
  filter (fun kv => negb (fst kv =? k)) o.

(** [list_contacts]: lines 110-112. *)
Definition list_contacts : Handler := fun args =>
  let limit := get args "limit" in
  let offset := get args "offset" in
  let sort := get args "sort" in
  let order := get args "order" in
  let include_last_interaction := get args "include_last_interaction" in
  search_part <- lift (qs [("limit", limit);
                      ("offset", offset);
                      ("sort", sort);
                      ("order", order);
                      ("include_last_interaction", include_last_interaction)]) ;;
  respond ("/contacts" ++ search_part) None VUndefined.

(** [get_contact]: lines 126-128. *)
Definition get_contact : Handler := fun args =>
  let id := get args "id" in
  let entries_limit := get args "entries_limit" in
  id_text <- lift (ToString id) ;;
  search_part <- lift (qs [("entries_limit", entries_limit)]) ;;
  respond ("/contacts/" ++ id_text ++ search_part) None VUndefined.

(** [create_contact]: lines 145-147. *)
Definition create_contact : Handler := fun params =>
  respond "/contacts" (Some "POST") (VObject params).

(** [update_contact]: lines 165-167. *)
Definition update_contact : Handler := fun args =>
  let id := get args "id" in
  let body := omit "id" args in
  id_text <- lift (ToString id) ;;
  respond ("/contacts/" ++ id_text) (Some "PATCH") (VObject body).

(** [delete_contact]: lines 179-181. *)
Definition delete_contact : Handler := fun args =>
  let id := get args "id" in
  id_text <- lift (ToString id) ;;
  respond ("/contacts/" ++ id_text) (Some "DELETE") VUndefined.

(** [search_contacts]: lines 194-196. *)
Definition search_contacts : Handler := fun args =>
  let q := get args "q" in
  search_part <- lift (qs [("q", q)]) ;;
  respond ("/contacts/search" ++ search_part) None VUndefined.

(** [list_companies]: lines 216-218. *)
Definition list_companies : Handler := fun args =>
  let limit := get args "limit" in
  let offset := get args "offset" in
  let sort := get args "sort" in
  let order := get args "order" in
  search_part <- lift (qs [("limit", limit);
                      ("offset", offset);
                      ("sort", sort);
                      ("order", order)]) ;;
  respond ("/companies" ++ search_part) None VUndefined.

(** [get_company]: lines 231-233. *)
Definition get_company : Handler := fun args =>
  let id := get args "id" in
  id_text <- lift (ToString id) ;;
  respond ("/companies/" ++ id_text) None VUndefined.

(** [create_company]: lines 250-252. *)
Definition create_company : Handler := fun params =>
  respond "/companies" (Some "POST") (VObject params).

(** [update_company]: lines 270-272. *)
Definition update_company : Handler := fun args =>
  let id := get args "id" in
  let body := omit "id" args in
  id_text <- lift (ToString id) ;;
  respond ("/companies/" ++ id_text) (Some "PATCH") (VObject body).

(** [delete_company]: lines 285-288. *)
Definition delete_company : Handler := fun args =>
  let id := get args "id" in
  let permanent := get args "permanent" in
  let query := if truthy permanent then "?permanent=true" else "" in
  id_text <- lift (ToString id) ;;
  respond ("/companies/" ++ id_text ++ query) (Some "DELETE") VUndefined.

(** [search_companies]: lines 301-303. *)
Definition search_companies : Handler := fun args =>
  let q := get args "q" in
  search_part <- lift (qs [("q", q)]) ;;
  respond ("/companies/search" ++ search_part) None VUndefined.

(** [list_entries]: lines 328-332. *)
Definition list_entries : Handler := fun args =>
  let type := get args "type" in
  let contact_id := get args "contact_id" in
  let from := get args "from" in
  let to := get args "to" in
  let limit := get args "limit" in
  let offset := get args "offset" in
  search_part <- lift (qs [("type", type);
                      ("contact_id", contact_id);
                      ("from", from);
                      ("to", to);
                      ("limit", limit);
                      ("offset", offset)]) ;;
  respond ("/entries" ++ search_part) None VUndefined.

(** [create_entry]: lines 353-355. *)
Definition create_entry : Handler := fun params =>
  respond "/entries" (Some "POST") (VObject params).

(** [update_entry]: lines 377-379. *)
Definition update_entry : Handler := fun args =>
  let id := get args "id" in
  let body := omit "id" args in
  id_text <- lift (ToString id) ;;
  respond ("/entries/" ++ id_text) (Some "PATCH") (VObject body).

(** [delete_entry]: lines 391-393. *)
Definition delete_entry : Handler := fun args =>
  let id := get args "id" in
  id_text <- lift (ToString id) ;;
  respond ("/entries/" ++ id_text) (Some "DELETE") VUndefined.

(** [list_tasks]: lines 417-421. *)
Definition list_tasks : Handler := fun args =>
  let status := get args "status" in
  let date_type := get args "date_type" in
  let date := get args "date" in
  let limit := get args "limit" in
  let offset := get args "offset" in
  search_part <- lift (qs [("status", status);
                      ("date_type", date_type);
                      ("date", date);
                      ("limit", limit);
                      ("offset", offset)]) ;;
  respond ("/tasks" ++ search_part) None VUndefined.

(** [create_task]: lines 452-454. *)
Definition create_task : Handler := fun params =>
  respond "/tasks" (Some "POST") (VObject params).

(** [update_task]: lines 474-476. *)
Definition update_task : Handler := fun args =>
  let id := get args "id" in
  let body := omit "id" args in
  id_text <- lift (ToString id) ;;
  respond ("/tasks/" ++ id_text) (Some "PATCH") (VObject body).

(** [delete_task]: lines 488-490. *)
Definition delete_task : Handler := fun args =>
  let id := get args "id" in
  id_text <- lift (ToString id) ;;
  respond ("/tasks/" ++ id_text) (Some "DELETE") VUndefined.

(** [complete_task]: lines 503-505. *)
Definition complete_task : Handler := fun args =>
  let id := get args "id" in
  id_text <- lift (ToString id) ;;
  respond ("/tasks/" ++ id_text ++ "/complete") (Some "POST") VUndefined.

(** [uncomplete_task]: lines 517-519. *)
Definition uncomplete_task : Handler := fun args =>
  let id := get args "id" in
  id_text <- lift (ToString id) ;;
  respond ("/tasks/" ++ id_text ++ "/uncomplete") (Some "POST") VUndefined.

(** [snooze_task]: lines 536-538. *)
Definition snooze_task : Handler := fun args =>
  let id := get args "id" in
  let body := omit "id" args in
  id_text <- lift (ToString id) ;;
  respond ("/tasks/" ++ id_text ++ "/snooze") (Some "POST") (VObject body).

(** [list_notes]: lines 558-562. *)
Definition list_notes : Handler := fun args =>
  let pinned := get args "pinned" in
  let archived := get args "archived" in
  let limit := get args "limit" in
  let offset := get args "offset" in
  search_part <- lift (qs [("pinned", pinned);
                      ("archived", archived);
                      ("limit", limit);
                      ("offset", offset)]) ;;
  respond ("/notes" ++ search_part) None VUndefined.

(** [create_note]: lines 580-582. *)
Definition create_note : Handler := fun params =>
  respond "/notes" (Some "POST") (VObject params).

(** [update_note]: lines 595-597. *)
Definition update_note : Handler := fun args =>
  let id := get args "id" in
  let body := omit "id" args in
  id_text <- lift (ToString id) ;;
  respond ("/notes/" ++ id_text) (Some "PATCH") (VObject body).

(** [delete_note]: lines 610-613. *)
Definition delete_note : Handler := fun args =>
  let id := get args "id" in
  let permanent := get args "permanent" in
  let query := if truthy permanent then "?permanent=true" else "" in
  id_text <- lift (ToString id) ;;
  respond ("/notes/" ++ id_text ++ query) (Some "DELETE") VUndefined.

(** [pin_note]: lines 625-627. *)
Definition pin_note : Handler := fun args =>
  let id := get args "id" in
  id_text <- lift (ToString id) ;;
  respond ("/notes/" ++ id_text ++ "/pin") (Some "POST") VUndefined.

(** [archive_note]: lines 639-641. *)
Definition archive_note : Handler := fun args =>
  let id := get args "id" in
  id_text <- lift (ToString id) ;;
  respond ("/notes/" ++ id_text ++ "/archive") (Some "POST") VUndefined.

(** [restore_note]: lines 653-655. *)
Definition restore_note : Handler := fun args =>
  let id := get args "id" in
  id_text <- lift (ToString id) ;;
  respond ("/notes/" ++ id_text ++ "/restore") (Some "POST") VUndefined.

(** [list_days]: lines 674-676. *)
Definition list_days : Handler := fun args =>
  let from := get args "from" in
  let to := get args "to" in
  let limit := get args "limit" in
  let offset := get args "offset" in
  search_part <- lift (qs [("from", from);
                      ("to", to);
                      ("limit", limit);
                      ("offset", offset)]) ;;
  respond ("/days" ++ search_part) None VUndefined.

(** [get_day]: lines 688-690. *)
Definition get_day : Handler := fun args =>
  let date := get args "date" in
  date_text <- lift (ToString date) ;;
  respond ("/days/" ++ date_text) None VUndefined.

(** [update_day]: lines 704-706. *)
Definition update_day : Handler := fun params =>
  respond "/days" (Some "POST") (VObject params).

(** [list_tags]: lines 723-725. *)
Definition list_tags : Handler := fun args =>
  let limit := get args "limit" in
  let offset := get args "offset" in
  search_part <- lift (qs [("limit", limit);
                      ("offset", offset)]) ;;
  respond ("/tags" ++ search_part) None VUndefined.

(** [get_tag_items]: lines 738-740. *)
Definition get_tag_items : Handler := fun args =>
  let id := get args "id" in
  id_text <- lift (ToString id) ;;
  respond ("/tags/" ++ id_text ++ "/items") None VUndefined.

(** [link_tag]: lines 756-758. *)
Definition link_tag : Handler := fun args =>
  let id := get args "id" in
  let body := omit "id" args in
  id_text <- lift (ToString id) ;;
  respond ("/tags/" ++ id_text ++ "/link") (Some "POST") (VObject body).

(** [unlink_tag]: lines 774-776. *)
Definition unlink_tag : Handler := fun args =>
  let id := get args "id" in
  let body := omit "id" args in
  id_text <- lift (ToString id) ;;
  respond ("/tags/" ++ id_text ++ "/unlink") (Some "POST") (VObject body).

(** [get_contact_timeline]: lines 801-805. *)
Definition get_contact_timeline : Handler := fun args =>
  let id := get args "id" in
  let type := get args "type" in
  let from := get args "from" in
  let to := get args "to" in
  let limit := get args "limit" in
  let offset := get args "offset" in
  id_text <- lift (ToString id) ;;
  search_part <- lift (qs [("type", type);
                      ("from", from);
                      ("to", to);
                      ("limit", limit);
                      ("offset", offset)]) ;;
  respond ("/contacts/" ++ id_text ++ "/timeline" ++ search_part)
          None VUndefined.

(** [get_tasks_today]: lines 820-822. *)
Definition get_tasks_today : Handler := fun _ =>
  respond "/tasks/today" None VUndefined.

(** [get_tasks_overdue]: lines 833-835. *)
Definition get_tasks_overdue : Handler := fun _ =>
  respond "/tasks/overdue" None VUndefined.

(** [get_changelog]: lines 857-859. *)
Definition get_changelog : Handler := fun args =>
  let since := get args "since" in
  let type := get args "type" in
  let limit := get args "limit" in
  search_part <- lift (qs [("since", since);
                      ("type", type);
                      ("limit", limit)]) ;;
  respond ("/changelog" ++ search_part) None VUndefined.

(** [search]: lines 881-883. *)
Definition search : Handler := fun args =>
  let q := get args "q" in
  let type := get args "type" in
  let limit := get args "limit" in
  search_part <- lift (qs [("q", q);
                      ("type", type);
                      ("limit", limit)]) ;;
  respond ("/search" ++ search_part) None VUndefined.

(** [get_agent_instructions]: lines 898-900. *)
Definition get_agent_instructions : Handler := fun _ =>
  respond "/agent/instructions" None VUndefined.

(** *** The registry

    What [server.registerTool] is given for each tool, in the order of the
    registrations: the name, the keys of [inputSchema] in the order they
    are declared (the declared parameters), the annotations and the
    handler.  An annotation that the source leaves out is [None]. *)

Record Annotations : Type := mkAnnotations {
  title : string;
  readOnlyHint : option bool;
  destructiveHint : option bool;
  idempotentHint : option bool;
  openWorldHint : option bool
}.

Record Tool : Type := mkTool {
  tool_name : string;
  tool_params : list string;
  tool_annotations : Annotations;
  tool_handler : Handler
}.

Definition tools : list Tool :=
  [
   mkTool "list_contacts"
     ["limit"; "offset"; "sort"; "order"; "include_last_interaction"]
     (mkAnnotations "List contacts" (Some true) None None (Some false))
     list_contacts;
   mkTool "get_contact"
     ["id"; "entries_limit"]
     (mkAnnotations "Get contact" (Some true) None None (Some false))
     get_contact;
   mkTool "create_contact"
     ["first_name"; "last_name"; "email"; "phone"; "company"; "notes"]
     (mkAnnotations "Create contact" None (Some false) (Some false) (Some false))
     create_contact;
   mkTool "update_contact"
     ["id"; "first_name"; "last_name"; "email"; "phone"; "company"; "notes"]
     (mkAnnotations "Update contact" None (Some false) (Some true) (Some false))
     update_contact;
   mkTool "delete_contact"
     ["id"]
     (mkAnnotations "Delete contact" None (Some true) (Some true) (Some false))
     delete_contact;
   mkTool "search_contacts"
     ["q"]
     (mkAnnotations "Search contacts" (Some true) None None (Some false))
     search_contacts;
   mkTool "list_companies"
     ["limit"; "offset"; "sort"; "order"]
     (mkAnnotations "List companies" (Some true) None None (Some false))
     list_companies;
   mkTool "get_company"
     ["id"]
     (mkAnnotations "Get company" (Some true) None None (Some false))
     get_company;
   mkTool "create_company"
     ["name"; "website"; "email"; "phone"; "address"; "notes"]
     (mkAnnotations "Create company" None (Some false) (Some false) (Some false))
     create_company;
   mkTool "update_company"
     ["id"; "name"; "website"; "email"; "phone"; "address"; "notes"]
     (mkAnnotations "Update company" None (Some false) (Some true) (Some false))
     update_company;
   mkTool "delete_company"
     ["id"; "permanent"]
     (mkAnnotations "Delete company" None (Some true) (Some true) (Some false))
     delete_company;
   mkTool "search_companies"
     ["q"]
     (mkAnnotations "Search companies" (Some true) None None (Some false))
     search_companies;
   mkTool "list_entries"
     ["type"; "contact_id"; "from"; "to"; "limit"; "offset"]
     (mkAnnotations "List entries" (Some true) None None (Some false))
     list_entries;
   mkTool "create_entry"
     ["type"; "date"; "content"; "contact_ids"]
     (mkAnnotations "Create entry" None (Some false) (Some false) (Some false))
     create_entry;
   mkTool "update_entry"
     ["id"; "type"; "date"; "content"; "contact_ids"]
     (mkAnnotations "Update entry" None (Some false) (Some true) (Some false))
     update_entry;
   mkTool "delete_entry"
     ["id"]
     (mkAnnotations "Delete entry" None (Some true) (Some true) (Some false))
     delete_entry;
   mkTool "list_tasks"
     ["status"; "date_type"; "date"; "limit"; "offset"]
     (mkAnnotations "List tasks" (Some true) None None (Some false))
     list_tasks;
   mkTool "create_task"
     ["title"; "description"; "date"; "date_type"; "priority"; "recurrence_type"; "recurrence_interval"; "contact_id"]
     (mkAnnotations "Create task" None (Some false) (Some false) (Some false))
     create_task;
   mkTool "update_task"
     ["id"; "title"; "description"; "date"; "date_type"; "priority"]
     (mkAnnotations "Update task" None (Some false) (Some true) (Some false))
     update_task;
   mkTool "delete_task"
     ["id"]
     (mkAnnotations "Delete task" None (Some true) (Some true) (Some false))
     delete_task;
   mkTool "complete_task"
     ["id"]
     (mkAnnotations "Complete task" None (Some false) (Some true) (Some false))
     complete_task;
   mkTool "uncomplete_task"
     ["id"]
     (mkAnnotations "Uncomplete task" None (Some false) (Some true) (Some false))
     uncomplete_task;
   mkTool "snooze_task"
     ["id"; "date"; "date_type"]
     (mkAnnotations "Snooze task" None (Some false) (Some true) (Some false))
     snooze_task;
   mkTool "list_notes"
     ["pinned"; "archived"; "limit"; "offset"]
     (mkAnnotations "List notes" (Some true) None None (Some false))
     list_notes;
   mkTool "create_note"
     ["content"; "is_pinned"; "contact_ids"]
     (mkAnnotations "Create note" None (Some false) (Some false) (Some false))
     create_note;
   mkTool "update_note"
     ["id"; "content"]
     (mkAnnotations "Update note" None (Some false) (Some true) (Some false))
     update_note;
   mkTool "delete_note"
     ["id"; "permanent"]
     (mkAnnotations "Delete note" None (Some true) (Some true) (Some false))
     delete_note;
   mkTool "pin_note"
     ["id"]
     (mkAnnotations "Pin note" None (Some false) (Some true) (Some false))
     pin_note;
   mkTool "archive_note"
     ["id"]
     (mkAnnotations "Archive note" None (Some false) (Some true) (Some false))
     archive_note;
   mkTool "restore_note"
     ["id"]
     (mkAnnotations "Restore note" None (Some false) (Some true) (Some false))
     restore_note;
   mkTool "list_days"
     ["from"; "to"; "limit"; "offset"]
     (mkAnnotations "List days" (Some true) None None (Some false))
     list_days;
   mkTool "get_day"
     ["date"]
     (mkAnnotations "Get day" (Some true) None None (Some false))
     get_day;
   mkTool "update_day"
     ["date"; "note"]
     (mkAnnotations "Update day" None (Some false) (Some true) (Some false))
     update_day;
   mkTool "list_tags"
     ["limit"; "offset"]
     (mkAnnotations "List tags" (Some true) None None (Some false))
     list_tags;
   mkTool "get_tag_items"
     ["id"]
     (mkAnnotations "Get tag items" (Some true) None None (Some false))
     get_tag_items;
   mkTool "link_tag"
     ["id"; "entity_type"; "entity_id"]
     (mkAnnotations "Link tag" None (Some false) (Some true) (Some false))
     link_tag;
   mkTool "unlink_tag"
     ["id"; "entity_type"; "entity_id"]
     (mkAnnotations "Unlink tag" None (Some true) (Some true) (Some false))
     unlink_tag;
   mkTool "get_contact_timeline"
     ["id"; "type"; "from"; "to"; "limit"; "offset"]
     (mkAnnotations "Get contact timeline" (Some true) None None (Some false))
     get_contact_timeline;
   mkTool "get_tasks_today"
     []
     (mkAnnotations "Get today's tasks" (Some true) None None (Some false))
     get_tasks_today;
   mkTool "get_tasks_overdue"
     []
     (mkAnnotations "Get overdue tasks" (Some true) None None (Some false))
     get_tasks_overdue;
   mkTool "get_changelog"
     ["since"; "type"; "limit"]
     (mkAnnotations "Get changelog" (Some true) None None (Some false))
     get_changelog;
   mkTool "search"
     ["q"; "type"; "limit"]
     (mkAnnotations "Search" (Some true) None None (Some false))
     search;
   mkTool "get_agent_instructions"
     []
     (mkAnnotations "Get agent instructions" (Some true) None None (Some false))
     get_agent_instructions
  ].

End Server.

(** The top level of the module up to the registrations: lines 11-21 and
    87-902.  Without a key the process prints a diagnostic and exits with
    status 1 before any tool is registered. *)
Inductive Startup : Type :=
| Exited (code : Z) (stderr : string)
| Registered (registry : list Tool).

Definition startup (env : Env)
           (transport : string -> RequestInit -> Completion Response)
  : Startup :=
  if API_KEY env =? ""
  then Exited 1 ("Error: KEEPSAKE_API_KEY environment variable is required."
                   ++ nl ++ "Generate one at https://app.keepsake.place/account")
  else Registered (tools env transport).

(* ------------------------------------------------------------------ *)
(** ** The vocabulary of the specification                             *)
(* ------------------------------------------------------------------ *)

(** The calls of [fetch] that a computation issues when it starts with
    none issued, and how it completes. *)
Definition issued {A} (m : M A) : list Request := snd (m []).

Definition outcome {A} (m : M A) : Completion A := fst (m []).

(** What [fetchApi] resolves to, read off the way the transport and the
    body parser settle. *)
Definition settled (c : Completion Response) : value :=
  match c with
  | Return res =>
      match res_json res with
      | Return json => json
      | Throw err => NETWORK_ERROR (String_error err)
      end
  | Throw err => NETWORK_ERROR (String_error err)
  end.

(** The [method] parameter of [fetchApi] after its default. *)
Definition method_or_GET (method : option string) : string :=
  match method with Some m => m | None => "GET" end.

(** The one request that [fetchApi env _ path method body] hands to
    [fetch]. *)
Definition request_of (env : Env) (path : string) (method : option string)
           (body : value) : Request :=
  mkRequest (API_BASE env ++ path) (build_init env (method_or_GET method) body).

(** How the transport settles a request. *)
Definition answer (transport : string -> RequestInit -> Completion Response)
           (r : Request) : Completion Response :=
  transport (req_url r) (req_init r).

(** A content made of exactly one text block. *)
Definition one_text (s : string) : RenderedContent :=
  mkContent [mkBlock "text" (Some s)].

(** "A parameter whose value is undefined, null, or the empty string". *)
Definition qs_skipped (v : value) : Prop :=
  v = VUndefined \/ v = VNull \/ v = VString "".

(** The parameters that qualify, in the order of the mapping. *)
Inductive Qualifying : Props -> Props -> Prop :=
| Qualifying_nil : Qualifying [] []
| Qualifying_skip k v params kept :
    qs_skipped v -> Qualifying params kept ->
    Qualifying ((k, v) :: params) kept
| Qualifying_keep k v params kept :
    ~ qs_skipped v -> Qualifying params kept ->
    Qualifying ((k, v) :: params) ((k, v) :: kept).

(** What one kept parameter contributes: the evaluation of the template
    literal of [qs] on it. *)
Definition qs_pair (kv : string * value) : Completion string :=
  and_then (encodeURIComponent (fst kv)) (fun key =>
  and_then (ToString (snd kv)) (fun shown =>
  and_then (encodeURIComponent shown) (fun val =>
  Return (key ++ "=" ++ val)))).

(** A string without a lone surrogate. *)
Fixpoint well_formed (s : string) : bool :=
  match s with
  | EmptyString => true
  | String c rest => negb (lone_surrogate_at c rest) && well_formed rest
  end.

(** Percent-encoding in the words of the URI syntax, independently of the
    encoder: a character of the unreserved alphabet stands for itself, any
    other octet is written as a percent sign and its two upper-case
    hexadecimal digits. *)
Fixpoint string_mem (c : ascii) (s : string) : bool :=
  match s with
  | EmptyString => false
  | String d rest => Ascii.eqb c d || string_mem c rest
  end.

Definition unreserved_alphabet : string :=
  "ABCDEFGHIJKLMNOPQRSTUVWXYZabcdefghijklmnopqrstuvwxyz0123456789-_.!~*'()".

Definition upper_hex_digits : string := "0123456789ABCDEF".

Inductive PercentEncoded : string -> string -> Prop :=
| PercentEncoded_nil : PercentEncoded "" ""
| PercentEncoded_plain c s t :
    string_mem c unreserved_alphabet = true ->
    PercentEncoded s t ->
    PercentEncoded (String c s) (String c t)
| PercentEncoded_escape c s t high low :
    string_mem c unreserved_alphabet = false ->
    String.get (nat_of_ascii c / 16) upper_hex_digits = Some high ->
    String.get (nat_of_ascii c mod 16) upper_hex_digits = Some low ->
    PercentEncoded s t ->
    PercentEncoded (String c s) (String "%" (String high (String low t))).

(** A value that [qs] can write: it has a string form, and that string has
    no lone surrogate. *)
Definition printable (v : value) : Prop :=
  exists shown, ToString v = Return shown /\ well_formed shown = true.

(** A parameter that [qs] can write, with what it has to write for it:
    [key=value], the key percent-encoded and the value the percent-encoding
    of its string form. *)
Definition writable_pair (kv : string * value) : Prop :=
  well_formed (fst kv) = true /\ printable (snd kv).

Definition EncodedPair (kv : string * value) (part : string) : Prop :=
  exists key shown val,
    ToString (snd kv) = Return shown
    /\ PercentEncoded (fst kv) key
    /\ PercentEncoded shown val
    /\ part = key ++ "=" ++ val.

(** The characters a percent-encoded component is made of. *)
Definition uri_component_char (c : ascii) : bool :=
  uri_unreserved c || (nat_of_ascii c =? 37)%nat.

Fixpoint string_forallb (p : ascii -> bool) (s : string) : bool :=
  match s with
  | EmptyString => true
  | String c rest => p c && string_forallb p rest
  end.

(** "The parsed JSON contains a field [k]". *)
Definition has_field (j : value) (k : string) : bool :=
  match j with
  | VObject o => match lookup k o with Some _ => true | None => false end
  | _ => false
  end.

(** [s.startsWith(p)]. *)
Fixpoint starts_with (p s : string) : bool :=
  match p with
  | EmptyString => true
  | String a p' =>
      match s with
      | EmptyString => false
      | String b s' => Ascii.eqb a b && starts_with p' s'
      end
  end.

(** A rendering is that of a Failure when it is one text block that starts
    with "Error: ". *)
Definition renders_failure (c : Completion RenderedContent) : bool :=
  match c with
  | Return (mkContent [mkBlock _ (Some s)]) => starts_with "Error: " s
  | _ => false
  end.

(** The message of a Failure in the words of the specification: "the
    error's message when the error is a structured object with a message;
    the error value itself when it is a bare string; otherwise the JSON
    encoding of the error object". *)
Definition spec_error_message (error : value) : option string :=
  match error with
  | VString s => Some s
  | VObject o =>
      match lookup "message" o with
      | Some m => match ToString m with
                  | Return shown => Some shown
                  | Throw _ => None
                  end
      | None => JSON_stringify error
      end
  | _ => JSON_stringify error
  end.

(** The [message] of the [error] of a result. *)
Definition message_of (result : value) : value :=
  member (member result "error") "message".

(** A result whose error branch cannot build its text: the error is truthy
    and not a string, its message is truthy, and converting that message to
    a string throws [e]. *)
Definition unprintable_message (result : value) (e : JsError) : Prop :=
  truthy (member result "error") = true
  /\ is_string (member result "error") = false
  /\ truthy (message_of result) = true
  /\ ToString (message_of result) = Throw e.

(** What the error branch of [toContent] puts after "Error: ", before it
    is converted to a string. *)
Definition shown_message (result : value) : value :=
  if is_string (member result "error")
  then member result "error"
  else js_or (message_of result)
             (string_or_undefined (JSON_stringify (member result "error"))).

(** What reading [result.error] throws on [null] and [undefined]. *)
Definition reading_error_of (result : value) : JsError :=
  TypeError ("Cannot read properties of "
               ++ (if is_null result then "null" else "undefined")
               ++ " (reading 'error')").

(** The payload of a Success in the words of the specification: "the
    [data] field when a [data] field is present, else the entire success
    payload". *)
Definition spec_success_payload (o : Props) : value :=
  match lookup "data" o with
  | Some d => d
  | None => VObject o
  end.

(** What an operation with an [id] path parameter must have sent for the
    arguments [args]: one request, to [path] under the base URL, with the
    given method, whose body is the JSON encoding of an object [body] that
    has no [id] and otherwise holds the properties of [args], unchanged and
    in the same order. *)
Definition sends_rest_as_body (env : Env) (args : Props) (method path : string)
           (sent : list Request) : Prop :=
  exists (body : Props) (encoded : string),
    sent = [mkRequest (API_BASE env ++ path)
                      (mkInit method (request_headers env) (Some encoded))]
    /\ JSON_stringify (VObject body) = Some encoded
    /\ lookup "id" body = None
    /\ (forall k, k <> "id" -> lookup k body = lookup k args)
    /\ body = filter (fun kv => negb (fst kv =? "id")) args.

(** What an operation without a body must have sent. *)
Definition sends_without_body (env : Env) (method path : string)
           (sent : list Request) : Prop :=
  sent = [mkRequest (API_BASE env ++ path)
                    (mkInit method (request_headers env) None)].

(** *** Concrete inputs used to exercise the statements *)

Definition sample_env : Env := mkEnv None (Some "ks_live_0123456789").

Definition sample_id : string := "3f2c1a9e-5b7d-4c1e-9a46-0d5e8f7b2a10".

(** A transport that cannot reach the service. *)
Definition transport_down : string -> RequestInit -> Completion Response :=
  fun _ _ => Throw (TypeError "fetch failed").

(** A transport that answers every request with one status and body. *)
Definition transport_answers (status : Z) (parsed : Completion value)
  : string -> RequestInit -> Completion Response :=
  fun _ _ => Return (mkResponse status parsed).

(** Response bodies, after parsing. *)
Definition error_bad_id : value :=
  VObject [("code", VString "X"); ("message", VString "bad id")].

Definition error_empty_message : value :=
  VObject [("code", VString "X"); ("message", VString "")].

Definition body_error_null : value :=
  VObject [("data", VObject [("id", VNumber 7)]); ("error", VNull)].

Definition body_error_empty : value :=
  VObject [("data", VObject [("id", VNumber 7)]); ("error", VString "")].

Definition payload_contacts : Props :=
  [("data", VArray [VObject [("id", VNumber 7); ("first_name", VString "Ada")]]);
   ("meta", VObject [("total", VNumber 1)])].

Definition payload_data_null : Props :=
  [("data", VNull); ("meta", VObject [("total", VNumber 0)])].

(** Arguments of tool calls, after validation. *)
Definition args_delete_permanent : Props :=
  [("id", VString sample_id); ("permanent", VBool true)].

Definition args_update_contact : Props :=
  [("id", VString sample_id); ("first_name", VString "Ada");
   ("email", VString "ada@example.org")].

(** The rejection of [res.json()] on a body that is not JSON. *)
Definition not_json : JsError :=
  mkError "SyntaxError" "Unexpected token < in JSON at position 0".

(** Two entries of the registry, as registered under [sample_env] over
    [transport_down]. *)
Definition list_contacts_tool : Tool :=
  mkTool "list_contacts"
    ["limit"; "offset"; "sort"; "order"; "include_last_interaction"]
    (mkAnnotations "List contacts" (Some true) None None (Some false))
    (list_contacts sample_env transport_down).

Definition delete_note_tool : Tool :=
  mkTool "delete_note"
    ["id"; "permanent"]
    (mkAnnotations "Delete note" None (Some true) (Some true) (Some false))
    (delete_note sample_env transport_down).

(** *** Reading a query string back

    What the receiving side does with a query string: split it at [&],
    cut each part at its first [=], and percent-decode both sides. *)

(** The value of a hexadecimal digit. *)
Definition hex_value (c : ascii) : option nat :=
  let n := nat_of_ascii c in
  if in_range 48 57 n then Some (n - 48)
  else if in_range 65 70 n then Some (n - 55)
  else if in_range 97 102 n then Some (n - 87)
  else None.

Fixpoint percent_decode (s : string) : option string :=
  match s with
  | EmptyString => Some ""
  | String c rest =>
      if (nat_of_ascii c =? 37)%nat
      then match rest with
           | String h (String l rest') =>
               match hex_value h, hex_value l, percent_decode rest' with
               | Some a, Some b, Some r =>
                   Some (String (ascii_of_nat (16 * a + b)) r)
               | _, _, _ => None
               end
           | _ => None
           end
      else option_map (String c) (percent_decode rest)
  end.

(** [s.split(sep)] for a separator of one character. *)
Fixpoint split_on (sep : ascii) (s : string) : list string :=
  match s with
  | EmptyString => [""]
  | String c rest =>
      if Ascii.eqb c sep then "" :: split_on sep rest
      else match split_on sep rest with
           | [] => [String c ""]
           | first :: others => String c first :: others
           end
  end.

(** The text before and the text after the first [sep]. *)
Fixpoint cut_at (sep : ascii) (s : string) : option (string * string) :=
  match s with
  | EmptyString => None
  | String c rest =>
      if Ascii.eqb c sep then Some ("", rest)
      else option_map (fun p => (String c (fst p), snd p)) (cut_at sep rest)
  end.

Definition parse_pair (part : string) : option (string * string) :=
  match cut_at "=" part with
  | Some (k, v) =>
      match percent_decode k, percent_decode v with
      | Some k', Some v' => Some (k', v')
      | _, _ => None
      end
  | None => None
  end.

Fixpoint all_some {A : Type} (l : list (option A)) : option (list A) :=
  match l with
  | [] => Some []
  | Some a :: rest => option_map (cons a) (all_some rest)
  | None :: _ => None
  end.

Definition parse_query (q : string) : option (list (string * string)) :=
  match q with
  | EmptyString => Some []
  | String c rest =>
      if Ascii.eqb c "?"
      then all_some (map parse_pair (split_on "&" rest))
      else None
  end.

(** The characters a query string built by [qs] is made of. *)
Definition query_char (c : ascii) : bool :=
  uri_component_char c
  || Ascii.eqb c "&" || Ascii.eqb c "=" || Ascii.eqb c "?".

(** A request that the service can be sent: under the base URL, at a path
    that starts with a slash, with one of the four methods, the two
    headers, and no body when the method is GET or DELETE. *)
Definition well_formed_request (env : Env) (r : Request) : Prop :=
  (exists path, req_url r = API_BASE env ++ path
                /\ starts_with "/" path = true)
  /\ In (init_method (req_init r)) ["GET"; "POST"; "PATCH"; "DELETE"]
  /\ init_headers (req_init r) = request_headers env
  /\ (init_method (req_init r) = "GET" \/ init_method (req_init r) = "DELETE" ->
      init_body (req_init r) = None).

(** Arguments used to exercise the statements about the tools. *)
Definition args_search_empty : Props := [("q", VString "")].

Definition args_list_contacts : Props :=
  [("limit", VNumber 5); ("include_last_interaction", VBool false)].

Definition error_object_message : value :=
  VObject [("code", VString "E_VALIDATION");
           ("message", VObject [("field", VString "email")])].

(** An error whose message owns a [toString] property. *)
Definition error_message_owning_toString : value :=
  VObject [("message", VObject [("toString", VNumber 1)])].

(** The string made of the lone surrogate U+D800. *)
Definition lone_surrogate : string :=
  String (ascii_of_nat 237) (String (ascii_of_nat 160)
                               (String (ascii_of_nat 128) "")).

Definition args_search_surrogate : Props := [("q", VString lone_surrogate)].

(** What the hints of a tool say of a request it sends. *)
Definition read_only_agrees (tool : Tool) (r : Request) : Prop :=
  (init_method (req_init r) = "GET"
   <-> readOnlyHint (tool_annotations tool) = Some true)
  /\ (init_method (req_init r) = "GET" -> init_body (req_init r) = None).

Definition hints_agree (tool : Tool) (r : Request) : Prop :=
  (init_method (req_init r) = "DELETE" ->
   destructiveHint (tool_annotations tool) = Some true)
  /\ (idempotentHint (tool_annotations tool) = Some false ->
      init_method (req_init r) = "POST").

(** A computation that throws before it calls the service, leaving the
    list of calls as it found it. *)
Definition throws_before_any_call {A : Type} (m : M A) : Prop :=
  exists e, forall log, m log = (Throw e, log).

(** A computation that calls the service exactly once, with [r], whatever
    was called before. *)
Definition calls_once_with {A : Type} (m : M A) (r : Request) : Prop :=
  forall log, snd (m log) = List.app log [r].

(** What a handler does, as far as the service can tell: it throws while
    building its path, or it sends one request of which [P] holds. *)
Definition one_call_or_none (P : Request -> Prop) (m : M RenderedContent)
  : Prop :=
  throws_before_any_call m \/ exists r, P r /\ calls_once_with m r.

(** The declared parameters of a tool all hold printable values. *)
Definition printable_arguments (tool : Tool) (args : Props) : Prop :=
  forall k, In k (tool_params tool) -> printable (get args k).

(** *** Induction on values

    A property holds of every value when it holds of the scalars, of an
    array whose elements have it, and of an object whose property values
    have it. *)
Section ValueInduction.

Variable P : value -> Prop.
Hypothesis P_undefined : P VUndefined.
Hypothesis P_null : P VNull.
Hypothesis P_bool : forall b, P (VBool b).
Hypothesis P_number : forall n, P (VNumber n).
Hypothesis P_string : forall s, P (VString s).
Hypothesis P_array : forall items, Forall P items -> P (VArray items).
Hypothesis P_object :
  forall props, Forall (fun kv => P (snd kv)) props -> P (VObject props).

Fixpoint value_induction (v : value) : P v :=
  match v with
  | VUndefined => P_undefined
  | VNull => P_null
  | VBool b => P_bool b
  | VNumber n => P_number n
  | VString s => P_string s
  | VArray items =>
      P_array items
        ((fix all (l : list value) : Forall P l :=
            match l with
            | [] => Forall_nil P
            | x :: rest => Forall_cons x (value_induction x) (all rest)
            end) items)
  | VObject props =>
      P_object props
        ((fix all (l : list (string * value))
            : Forall (fun kv => P (snd kv)) l :=
            match l with
            | [] => Forall_nil _
            | kv :: rest =>
                Forall_cons kv (value_induction (snd kv)) (all rest)
            end) props)
  end.

End ValueInduction.

(* ================================================================== *)
(** * Properties                                                       *)
(* ================================================================== *)

(** ** The encoders on concrete inputs *)

Example stringify_compact :
  JSON_stringify (VObject [("code", VString "X");
                           ("n", VArray [VNumber 1; VUndefined]);
                           ("skip", VUndefined)])
  = Some ("{" ++ dquote ++ "code" ++ dquote ++ ":" ++ dquote ++ "X" ++ dquote
          ++ "," ++ dquote ++ "n" ++ dquote ++ ":[1,null]}").
Proof. reflexivity. Qed.

Example stringify_pretty :
  JSON_stringify_pretty (VObject [("a", VArray [VNumber (-12); VBool true]);
                                  ("b", VObject [])])
  = Some ("{" ++ nl ++ "  " ++ dquote ++ "a" ++ dquote ++ ": [" ++ nl
          ++ "    -12," ++ nl ++ "    true" ++ nl ++ "  ]," ++ nl
          ++ "  " ++ dquote ++ "b" ++ dquote ++ ": {}" ++ nl ++ "}").
Proof. reflexivity. Qed.

Example stringify_quotes :
  JSON_stringify (VString ("a" ++ dquote ++ "b\c" ++ nl))
  = Some (dquote ++ "a" ++ String backslash_char dquote ++ "b\\c\n" ++ dquote).
Proof. reflexivity. Qed.

Example stringify_lone_surrogate :
  JSON_stringify (VString ("a" ++ lone_surrogate ++ "b"))
  = Some (dquote ++ "a\ud800b" ++ dquote).
Proof. reflexivity. Qed.

Example ToString_array :
  ToString (VArray [VNumber 1; VNull; VArray [VString "x"; VBool false]])
  = Return "1,,x,false".
Proof. reflexivity. Qed.

Example ToString_own_toString :
  ToString (VArray [VNumber 1; VObject [("toString", VNull)]])
  = Throw (TypeError "Cannot convert object to primitive value").
Proof. reflexivity. Qed.

Example qs_encodes :
  qs [("q", VString "a b&c=d/é"); ("n", VNumber 0); ("e", VString "");
      ("z", VNull)]
  = Return "?q=a%20b%26c%3Dd%2F%C3%A9&n=0".
Proof. reflexivity. Qed.

(** ** Completions *)

Lemma sequence_returns {A B : Type} (f : A -> Completion B) (l : list A)
      (parts : list B) :
  sequence (map f l) = Return parts ->
  Forall2 (fun x p => f x = Return p) l parts.
Proof.
  revert parts. induction l as [| x l IH]; cbn; intros parts H.
  - injection H as <-. constructor.
  - destruct (f x) as [p |] eqn:Fx; cbn in H; [| discriminate].
    destruct (sequence (map f l)) as [others |]; cbn in H; [| discriminate].
    injection H as <-. constructor; auto.
Qed.

Lemma sequence_of_returns {A B : Type} (f : A -> Completion B) (l : list A) :
  Forall (fun x => exists p, f x = Return p) l ->
  exists parts, sequence (map f l) = Return parts.
Proof.
  induction 1 as [| x l [p Hp] _ [parts IH]]; cbn.
  - eexists; reflexivity.
  - rewrite Hp, IH. cbn. eexists; reflexivity.
Qed.

(** ** The query-string builder *)

Lemma qs_keeps_false_iff (v : value) : qs_keeps v = false <-> qs_skipped v.
Proof.
  unfold qs_skipped; split.
  - destruct v; cbn; try discriminate; auto.
    destruct s; cbn; [auto | discriminate].
  - intros [-> | [-> | ->]]; reflexivity.
Qed.

Lemma qs_keeps_true_iff (v : value) : qs_keeps v = true <-> ~ qs_skipped v.
Proof.
  rewrite <- qs_keeps_false_iff.
  destruct (qs_keeps v); split; congruence.
Qed.

Lemma qs_loop_thrown (params : Props) (e : JsError) :
  fold_left qs_step params (Throw e) = Throw e.
Proof. induction params as [| kv params IH]; cbn; auto. Qed.

(** The loop of [qs] pushes, after what [parts] already holds, one pair
    for each parameter that passes the test, and stops at the first one
    that throws. *)
Lemma qs_loop (params : Props) (parts : list string) :
  fold_left qs_step params (Return parts)
  = and_then (sequence (map qs_pair (filter (fun kv => qs_keeps (snd kv))
                                            params)))
             (fun pushed => Return (List.app parts pushed)).
Proof.
  revert parts; induction params as [| [k v] params IH]; intros parts; cbn.
  - now rewrite app_nil_r.
  - destruct (qs_keeps v); cbn; [| apply IH].
    unfold qs_pair at 1. cbn [fst snd].
    destruct (encodeURIComponent k) as [key |]; cbn;
      [| apply qs_loop_thrown].
    destruct (ToString v) as [shown |]; cbn; [| apply qs_loop_thrown].
    destruct (encodeURIComponent shown) as [val |]; cbn;
      [| apply qs_loop_thrown].
    rewrite IH.
    destruct (sequence _) as [pushed |]; cbn; [| reflexivity].
    now rewrite <- app_assoc.
Qed.

Lemma qs_unfolded (params : Props) :
  qs params
  = and_then (sequence (map qs_pair (filter (fun kv => qs_keeps (snd kv))
                                            params)))
             (fun parts => Return (match parts with
                                   | [] => ""
                                   | _ => "?" ++ join "&" parts
                                   end)).
Proof.
  unfold qs, Object_entries. rewrite qs_loop.
  destruct (sequence _) as [parts |]; cbn; [| reflexivity].
  destruct parts; reflexivity.
Qed.

Lemma Qualifying_filter (params : Props) :
  Qualifying params (filter (fun kv => qs_keeps (snd kv)) params).
Proof.
  induction params as [| [k v] params IH]; cbn.
  - constructor.
  - destruct (qs_keeps v) eqn:E.
    + apply Qualifying_keep; [now apply qs_keeps_true_iff | exact IH].
    + apply Qualifying_skip; [now apply qs_keeps_false_iff | exact IH].
Qed.

Lemma Qualifying_functional (params kept kept' : Props) :
  Qualifying params kept -> Qualifying params kept' -> kept = kept'.
Proof.
  intros H; revert kept'.
  induction H; intros kept' H'; inversion H'; subst;
    try reflexivity; try contradiction; auto.
  f_equal; auto.
Qed.

(** A parameter that is skipped leaves no trace: the outcome is the one
    without it. *)
Lemma qs_skipped_absent (before after : Props) (k : string) (v : value) :
  qs_skipped v ->
  qs (List.app before ((k, v) :: after)) = qs (List.app before after).
Proof.
  intros S. apply qs_keeps_false_iff in S.
  rewrite !qs_unfolded, !filter_app. cbn. now rewrite S.
Qed.

(** The encoder against the URI syntax, octet by octet. *)
Lemma unreserved_is_alphabet (c : ascii) :
  uri_unreserved c = string_mem c unreserved_alphabet.
Proof.
  destruct c as [[|] [|] [|] [|] [|] [|] [|] [|]]; reflexivity.
Qed.

Lemma percent_octet_digits (c : ascii) :
  exists high low,
    percent_octet c = String "%" (String high (String low ""))
    /\ String.get (nat_of_ascii c / 16) upper_hex_digits = Some high
    /\ String.get (nat_of_ascii c mod 16) upper_hex_digits = Some low.
Proof.
  destruct c as [[|] [|] [|] [|] [|] [|] [|] [|]];
    do 2 eexists; repeat split; reflexivity.
Qed.

Lemma encodeURIComponent_percent_encodes (s t : string) :
  encodeURIComponent s = Return t -> PercentEncoded s t.
Proof.
  revert t. induction s as [| c s IH]; cbn; intros t H.
  - injection H as <-. constructor.
  - destruct (lone_surrogate_at c s); [discriminate |].
    destruct (encodeURIComponent s) as [encoded |]; cbn in H; [| discriminate].
    injection H as <-.
    destruct (uri_unreserved c) eqn:U; rewrite unreserved_is_alphabet in U.
    + apply PercentEncoded_plain; auto.
    + destruct (percent_octet_digits c) as (high & low & -> & Hh & Hl).
      apply PercentEncoded_escape; auto.
Qed.

Lemma encodeURIComponent_well_formed (s : string) :
  well_formed s = true <-> exists t, encodeURIComponent s = Return t.
Proof.
  induction s as [| c s IH]; cbn.
  - split; eauto.
  - destruct (lone_surrogate_at c s); cbn.
    + split; [discriminate | intros [t H]; discriminate].
    + rewrite IH. split.
      * intros [t ->]. cbn. eauto.
      * intros [t H]. destruct (encodeURIComponent s); [eauto | discriminate].
Qed.

Lemma encodeURIComponent_lone_surrogate (s : string) :
  well_formed s = false ->
  encodeURIComponent s = Throw (URIError "URI malformed").
Proof.
  induction s as [| c s IH]; cbn; [discriminate |].
  destruct (lone_surrogate_at c s); cbn; [reflexivity |].
  intros W. now rewrite (IH W).
Qed.

Lemma qs_pair_encoded (kv : string * value) (part : string) :
  qs_pair kv = Return part -> EncodedPair kv part.
Proof.
  unfold qs_pair, EncodedPair. intros H.
  destruct (encodeURIComponent (fst kv)) as [key |] eqn:K; cbn in H;
    [| discriminate].
  destruct (ToString (snd kv)) as [shown |] eqn:S; cbn in H; [| discriminate].
  destruct (encodeURIComponent shown) as [val |] eqn:V; cbn in H;
    [| discriminate].
  injection H as <-. exists key, shown, val.
  auto using encodeURIComponent_percent_encodes.
Qed.

Lemma qs_pair_writable (kv : string * value) :
  writable_pair kv <-> exists part, qs_pair kv = Return part.
Proof.
  unfold writable_pair, printable, qs_pair. split.
  - intros [Wk (shown & S & Ws)].
    apply encodeURIComponent_well_formed in Wk as [key ->].
    apply encodeURIComponent_well_formed in Ws as [val V].
    rewrite S. cbn. rewrite V. cbn. eauto.
  - intros [part H].
    destruct (encodeURIComponent (fst kv)) as [key |] eqn:K; cbn in H;
      [| discriminate].
    destruct (ToString (snd kv)) as [shown |] eqn:S; cbn in H;
      [| discriminate].
    destruct (encodeURIComponent shown) as [val |] eqn:V; cbn in H;
      [| discriminate].
    split.
    + apply encodeURIComponent_well_formed. eauto.
    + exists shown. split; [reflexivity |].
      apply encodeURIComponent_well_formed. eauto.
Qed.

Lemma qs_returns_iff (params : Props) :
  (exists s, qs params = Return s)
  <-> Forall writable_pair (filter (fun kv => qs_keeps (snd kv)) params).
Proof.
  rewrite qs_unfolded. split.
  - intros [s H].
    destruct (sequence _) as [parts |] eqn:E; cbn in H; [| discriminate].
    apply sequence_returns in E. clear H.
    induction E as [| kv part kept parts Hp _ IH]; constructor; auto.
    apply qs_pair_writable. eauto.
  - intros F.
    destruct (sequence_of_returns qs_pair
                (filter (fun kv => qs_keeps (snd kv)) params)) as [parts ->].
    + eapply Forall_impl; [| exact F]. intros kv. apply qs_pair_writable.
    + cbn. eauto.
Qed.

Lemma qs_single (k : string) (v : value) (shown key val : string) :
  qs_keeps v = true ->
  ToString v = Return shown ->
  encodeURIComponent k = Return key ->
  encodeURIComponent shown = Return val ->
  qs [(k, v)] = Return ("?" ++ key ++ "=" ++ val).
Proof.
  intros Q S K V. rewrite qs_unfolded. cbn. rewrite Q. cbn.
  unfold qs_pair. cbn [fst snd]. rewrite K, S. cbn. rewrite V. reflexivity.
Qed.

(** C1, as amended.  The parameters that qualify are those whose value is
    not undefined, null or the empty string, in the order of the mapping
    (so boolean false and numeric 0 qualify).  When each of them can be
    written (its value has a string form, and neither that string nor the
    key holds a lone surrogate), [qs] returns the empty string if none
    qualifies and otherwise [?] followed by one [key=value] per qualifying
    parameter, in order, joined with [&], the key percent-encoded and the
    value the percent-encoding of its string form.  When one of them
    cannot be written, [qs] throws and builds no query string. *)
Theorem qs_query_string (params : Props) :
  exists kept : Props,
    Qualifying params kept
    /\ (Forall writable_pair kept ->
        exists parts : list string,
          Forall2 EncodedPair kept parts
          /\ qs params = Return (match parts with
                                 | [] => ""
                                 | _ => "?" ++ join "&" parts
                                 end))
    /\ (~ Forall writable_pair kept -> exists e, qs params = Throw e)
    /\ (forall k, well_formed k = true ->
          exists key, PercentEncoded k key
                      /\ Qualifying [(k, VBool false)] [(k, VBool false)]
                      /\ qs [(k, VBool false)] = Return ("?" ++ key ++ "=false"))
    /\ (forall k, well_formed k = true ->
          exists key, PercentEncoded k key
                      /\ Qualifying [(k, VNumber 0)] [(k, VNumber 0)]
                      /\ qs [(k, VNumber 0)] = Return ("?" ++ key ++ "=0")).
Proof.
  exists (filter (fun kv => qs_keeps (snd kv)) params).
  split; [apply Qualifying_filter |].
  split; [| split; [| split]].
  - intros F. apply qs_returns_iff in F as [s H].
    rewrite qs_unfolded in H |- *.
    destruct (sequence _) as [parts |] eqn:E; cbn in H; [| discriminate].
    exists parts. split; [| reflexivity].
    apply sequence_returns in E.
    eapply Forall2_impl; [| exact E]. intros kv part. apply qs_pair_encoded.
  - intros NF. destruct (qs params) as [s | e] eqn:E; [| eauto].
    destruct NF. apply qs_returns_iff. eauto.
  - intros k W.
    apply encodeURIComponent_well_formed in W as [key K].
    exists key. split; [now apply encodeURIComponent_percent_encodes |].
    split.
    + apply Qualifying_keep; [| constructor].
      intros [H | [H | H]]; discriminate.
    + apply (qs_single k (VBool false) "false" key "false");
        auto; reflexivity.
  - intros k W.
    apply encodeURIComponent_well_formed in W as [key K].
    exists key. split; [now apply encodeURIComponent_percent_encodes |].
    split.
    + apply Qualifying_keep; [| constructor].
      intros [H | [H | H]]; discriminate.
    + apply (qs_single k (VNumber 0) "0" key "0"); auto; reflexivity.
Qed.

(** C1, as stated, fails on a value that holds a lone surrogate: the
    parameter qualifies, and [qs] throws instead of building a query
    string in which it is present. *)
Lemma qs_throws_on_lone_surrogate :
  ~ qs_skipped (VString lone_surrogate)
  /\ Qualifying args_search_surrogate args_search_surrogate
  /\ qs args_search_surrogate = Throw (URIError "URI malformed")
  /\ ~ (exists s, qs args_search_surrogate = Return s).
Proof.
  split; [intros [H | [H | H]]; discriminate |].
  split.
  - apply Qualifying_keep; [| constructor].
    intros [H | [H | H]]; discriminate.
  - split; [reflexivity |]. intros [s H]. discriminate H.
Qed.

(** Scenario B of the specification, on the object that [list_contacts]
    hands to [qs]. *)
Example qs_scenario_B :
  qs [("limit", VNumber 5); ("offset", VUndefined); ("sort", VUndefined);
      ("order", VUndefined); ("include_last_interaction", VBool false)]
  = Return "?limit=5&include_last_interaction=false".
Proof. reflexivity. Qed.

(** ** The HTTP helper *)

Section Helper.

Variable env : Env.
Variable transport : string -> RequestInit -> Completion Response.

(** [fetchApi] always resolves, and it calls [fetch] exactly once. *)
Lemma fetchApi_run (path : string) (method : option string) (body : value)
      (log : list Request) :
  fetchApi env transport path method body log
  = (Return (settled (answer transport (request_of env path method body))),
     List.app log [request_of env path method body]).
Proof.
  unfold fetchApi, try_catch, bind, fetch, lift, ret, settled, answer,
    request_of.
  fold (method_or_GET method). cbn [req_url req_init].
  destruct (transport _ _) as [res | err]; [| reflexivity].
  destruct (res_json res); reflexivity.
Qed.

Lemma respond_run (path : string) (method : option string) (body : value)
      (log : list Request) :
  respond env transport path method body log
  = (toContent (settled (answer transport (request_of env path method body))),
     List.app log [request_of env path method body]).
Proof.
  unfold respond, bind. rewrite fetchApi_run. reflexivity.
Qed.

Lemma build_init_GET (body : value) :
  build_init env "GET" body = mkInit "GET" (request_headers env) None.
Proof.
  unfold build_init. cbn. now rewrite andb_false_r.
Qed.

(** A method other than GET carries the JSON encoding of an object
    body, an object being truthy even when it is empty. *)
Lemma build_init_object (method : string) (body : Props) :
  (method =? "GET") = false ->
  build_init env method (VObject body)
  = mkInit method (request_headers env) (JSON_stringify (VObject body)).
Proof.
  intros E. unfold build_init. cbn. now rewrite E.
Qed.

Lemma build_init_no_body (method : string) :
  build_init env method VUndefined = mkInit method (request_headers env) None.
Proof. reflexivity. Qed.

(** C6.  A call of the helper whose method is GET, given explicitly or by
    default, issues one request and that request has no body, whatever
    body value the caller supplied. *)
Theorem GET_request_has_no_body (path : string) (body : value)
        (log : list Request) :
  init_body (build_init env "GET" body) = None
  /\ snd (fetchApi env transport path (Some "GET") body log)
     = List.app log [mkRequest (API_BASE env ++ path)
                               (mkInit "GET" (request_headers env) None)]
  /\ snd (fetchApi env transport path None body log)
     = List.app log [mkRequest (API_BASE env ++ path)
                               (mkInit "GET" (request_headers env) None)].
Proof.
  rewrite !fetchApi_run. unfold request_of. cbn [snd method_or_GET].
  rewrite build_init_GET. auto.
Qed.

End Helper.

(** ** The content renderer *)

Lemma SerializeJSON_defined (gap indent : string) (v : value) :
  is_undefined v = false -> exists s, SerializeJSON gap indent v = Some s.
Proof.
  destruct v as [| | [|] | n | s | items | props]; cbn;
    try discriminate; intros _; eexists; reflexivity.
Qed.

Lemma number_to_string_not_Error (n : Z) :
  starts_with "Error: " (number_to_string n) = false.
Proof.
  unfold number_to_string, NilZero.string_of_int.
  destruct (Z.to_int n) as [d | d]; [| reflexivity].
  destruct d; reflexivity.
Qed.

(** No JSON encoding starts with "Error: ": the two renderings of
    [toContent] cannot be mistaken for one another. *)
Lemma SerializeJSON_not_Error (gap indent : string) (v : value) (s : string) :
  SerializeJSON gap indent v = Some s -> starts_with "Error: " s = false.
Proof.
  destruct v as [| | [|] | n | str | items | props]; cbn;
    try discriminate; intros [= <-]; try reflexivity.
  - apply number_to_string_not_Error.
  - match goal with |- context [map ?f items] => destruct (map f items) end;
      [reflexivity |]; destruct (gap =? ""); reflexivity.
  - match goal with |- context [flat_map ?f props] =>
      destruct (flat_map f props) end;
      [reflexivity |]; destruct (gap =? ""); reflexivity.
Qed.

Lemma js_coalesce_defined (a b : value) :
  nullish b = false -> is_undefined (js_coalesce a b) = false.
Proof.
  unfold js_coalesce. destruct a, b; cbn; congruence.
Qed.

(** The only error [ToString] throws, at any depth of an array. *)
Lemma ToString_throws (v : value) (e : JsError) :
  ToString v = Throw e ->
  e = TypeError "Cannot convert object to primitive value".
Proof.
  revert e. induction v using value_induction; intros e; cbn;
    try discriminate.
  - destruct b; discriminate.
  - intros T.
    destruct (sequence _) as [pieces |] eqn:S; cbn in T; [discriminate |].
    injection T as <-.
    induction H as [| x rest Hx _ IH]; cbn in S; [discriminate |].
    destruct (nullish x); cbn in S.
    + destruct (sequence _); cbn in S; [discriminate |].
      injection S as <-. now apply IH.
    + destruct (ToString x) as [piece |] eqn:Tx; cbn in S.
      * destruct (sequence _); cbn in S; [discriminate |].
        injection S as <-. now apply IH.
      * injection S as <-. now apply Hx.
  - destruct (lookup "toString" props); [| discriminate].
    now intros [= <-].
Qed.

(** A value that is neither an array nor an object always has a string
    form. *)
Lemma ToString_scalar (v : value) :
  (forall items, v <> VArray items) -> (forall props, v <> VObject props) ->
  exists shown, ToString v = Return shown.
Proof.
  intros A O. destruct v as [| | [|] | n | s | items | props]; cbn; eauto.
  - now destruct (A items).
  - now destruct (O props).
Qed.

(** An object has a string form exactly when it owns no [toString]. *)
Lemma ToString_object (props : Props) :
  (lookup "toString" props = None
   -> ToString (VObject props) = Return "[object Object]")
  /\ (lookup "toString" props <> None
      -> ToString (VObject props)
         = Throw (TypeError "Cannot convert object to primitive value")).
Proof.
  cbn. destruct (lookup "toString" props); split; congruence.
Qed.

Lemma toContent_nullish (result : value) :
  nullish result = true -> toContent result = Throw (reading_error_of result).
Proof.
  intros H. unfold toContent. now rewrite H.
Qed.

Lemma toContent_failure (result : value) :
  nullish result = false ->
  truthy (member result "error") = true ->
  toContent result
  = and_then (ToString (shown_message result))
             (fun shown => Return (one_text ("Error: " ++ shown))).
Proof.
  intros N T. unfold toContent. now rewrite N, T.
Qed.

Lemma toContent_success (result : value) :
  nullish result = false ->
  truthy (member result "error") = false ->
  toContent result
  = Return (mkContent
              [mkBlock "text"
                 (JSON_stringify_pretty
                    (js_coalesce (member result "data") result))]).
Proof.
  intros N T. unfold toContent. now rewrite N, T.
Qed.

Lemma toContent_success_block (result : value) :
  nullish result = false ->
  truthy (member result "error") = false ->
  exists s,
    JSON_stringify_pretty (js_coalesce (member result "data") result) = Some s
    /\ toContent result = Return (one_text s).
Proof.
  intros N T. rewrite toContent_success by assumption.
  destruct (SerializeJSON_defined "  " "" _
              (js_coalesce_defined (member result "data") result N))
    as [s Hs].
  exists s. unfold JSON_stringify_pretty. now rewrite Hs.
Qed.

Lemma truthy_not_nullish (v : value) : truthy v = true -> nullish v = false.
Proof. destruct v; cbn; congruence. Qed.

Lemma member_of_nullish (v : value) (k : string) :
  nullish v = true -> member v k = VUndefined.
Proof. destruct v; cbn; congruence. Qed.

(** What the error branch shows, case by case. *)
Lemma shown_message_cases (result : value) :
  truthy (member result "error") = true ->
  (is_string (member result "error") = true
   /\ shown_message result = member result "error")
  \/ (is_string (member result "error") = false
      /\ truthy (message_of result) = true
      /\ shown_message result = message_of result)
  \/ (is_string (member result "error") = false
      /\ truthy (message_of result) = false
      /\ exists j, JSON_stringify (member result "error") = Some j
                   /\ shown_message result = VString j).
Proof.
  intros T. unfold shown_message, js_or.
  destruct (is_string (member result "error")) eqn:S; [auto |].
  destruct (truthy (message_of result)) eqn:M; [auto |].
  right; right. repeat split.
  destruct (SerializeJSON_defined "" "" (member result "error")) as [j Hj].
  { destruct (member result "error"); try reflexivity; discriminate T. }
  exists j. unfold JSON_stringify. rewrite Hj. auto.
Qed.

(** When [toContent] throws, and what. *)
Lemma toContent_throws_iff (result : value) (e : JsError) :
  toContent result = Throw e
  <-> (nullish result = true /\ e = reading_error_of result)
      \/ unprintable_message result e.
Proof.
  unfold unprintable_message.
  destruct (nullish result) eqn:N.
  - rewrite toContent_nullish by assumption.
    rewrite (member_of_nullish result "error" N). cbn [truthy]. split.
    + intros [= <-]. auto.
    + intros [[_ ->] | [H _]]; [reflexivity | discriminate].
  - destruct (truthy (member result "error")) eqn:T.
    + rewrite toContent_failure by assumption.
      destruct (shown_message_cases result T)
        as [[S ->] | [(S & M & ->) | (S & M & j & _ & ->)]].
      * destruct (member result "error"); try discriminate S. cbn.
        split; [discriminate |].
        intros [[H _] | (_ & H & _)]; discriminate.
      * destruct (ToString (message_of result)) as [shown | e'] eqn:Ts; cbn.
        -- split; [discriminate |].
           intros [[H _] | (_ & _ & _ & H)]; discriminate.
        -- split.
           ++ intros [= <-]. right. auto.
           ++ intros [[H _] | (_ & _ & _ & H)]; congruence.
      * cbn. split; [discriminate |].
        intros [[H _] | (_ & _ & H & _)]; [discriminate | congruence].
    + destruct (toContent_success_block result N T) as (s & _ & ->).
      split; [discriminate |].
      intros [[H _] | (H & _)]; discriminate.
Qed.

(** When [toContent] returns, it returns exactly one text block. *)
Lemma toContent_returns_one_block (result : value) (c : RenderedContent) :
  toContent result = Return c -> exists s, c = one_text s.
Proof.
  destruct (nullish result) eqn:N.
  - now rewrite toContent_nullish.
  - destruct (truthy (member result "error")) eqn:T.
    + rewrite toContent_failure by assumption.
      destruct (ToString (shown_message result)); cbn; [| discriminate].
      intros [= <-]. eauto.
    + destruct (toContent_success_block result N T) as (s & _ & ->).
      intros [= <-]. eauto.
Qed.

Lemma toContent_returns_or_throws (result : value) :
  (exists s, toContent result = Return (one_text s))
  \/ (exists e, toContent result = Throw e).
Proof.
  destruct (toContent result) as [c | e] eqn:E; [| eauto].
  destruct (toContent_returns_one_block result c E) as [s ->]. eauto.
Qed.

(** Whatever the value, a returned content is that of a Failure exactly
    when the [error] property is truthy. *)
Lemma renders_failure_iff (result : value) :
  renders_failure (toContent result) = true
  <-> truthy (member result "error") = true
      /\ exists shown, ToString (shown_message result) = Return shown.
Proof.
  destruct (nullish result) eqn:N.
  - rewrite toContent_nullish by assumption.
    rewrite (member_of_nullish result "error" N). cbn.
    split; [discriminate | intros [H _]; discriminate].
  - destruct (truthy (member result "error")) eqn:T.
    + rewrite toContent_failure by assumption.
      destruct (ToString (shown_message result)) as [shown |]; cbn.
      * split; eauto.
      * split; [discriminate | intros [_ [s H]]; discriminate].
    + destruct (toContent_success_block result N T) as (s & E & ->).
      change (renders_failure (Return (one_text s)))
        with (starts_with "Error: " s).
      rewrite (SerializeJSON_not_Error _ _ _ _ E).
      split; [discriminate | intros [H _]; discriminate].
Qed.

(** C9, as amended.  The renderer either returns a content of exactly
    one text block, with a text, or throws.  It throws in two cases only:
    on a result that is null (or undefined), where reading [error] fails,
    and on a result whose error is truthy and not a string, with a truthy
    message that has no string form, which means an object that owns a
    [toString] property, or an array that holds one; the error thrown is
    then a TypeError.  In particular it returns on every result object
    whose error is not truthy, is a string, or has a message with a string
    form. *)
Theorem toContent_one_block_or_throws (result : value) :
  ((exists s : string,
      toContent result = Return (mkContent [mkBlock "text" (Some s)]))
   \/ (exists e, toContent result = Throw e))
  /\ (forall e,
        toContent result = Throw e
        <-> (nullish result = true /\ e = reading_error_of result)
            \/ unprintable_message result e)
  /\ (forall e, unprintable_message result e ->
                e = TypeError "Cannot convert object to primitive value"
                /\ ((exists items, message_of result = VArray items)
                    \/ (exists props, message_of result = VObject props
                                      /\ lookup "toString" props <> None)))
  /\ (forall props, result = VObject props ->
        (truthy (get props "error") = false
         \/ is_string (get props "error") = true
         \/ (exists shown, ToString (message_of result) = Return shown)) ->
        exists s : string,
          toContent result = Return (mkContent [mkBlock "text" (Some s)])).
Proof.
  split; [apply toContent_returns_or_throws |].
  split; [intros e; apply toContent_throws_iff |].
  split.
  - intros e (_ & _ & _ & T). split; [exact (ToString_throws _ _ T) |].
    destruct (message_of result) as [| | [|] | n | s | items | props];
      try discriminate T; [eauto |].
    right. exists props. split; [reflexivity |].
    intros L. apply (proj1 (ToString_object props)) in L. congruence.
  - intros props -> H.
    destruct (toContent_returns_or_throws (VObject props)) as [R | [e Te]];
      [exact R |].
    apply toContent_throws_iff in Te as [[N _] | (T & S & M & Ts)];
      [discriminate N |].
    cbn [member] in T, S.
    destruct H as [H | [H | [shown H]]]; congruence.
Qed.

(** C9, as stated, fails on a result object whose error has a message
    owning a [toString] property, and on the null that a body can parse
    to: the renderer throws on both. *)
Lemma toContent_throws_on_own_toString :
  toContent (VObject [("error", error_message_owning_toString)])
  = Throw (TypeError "Cannot convert object to primitive value")
  /\ ~ (exists c, toContent (VObject [("error", error_message_owning_toString)])
                  = Return c)
  /\ toContent VNull
     = Throw (TypeError "Cannot read properties of null (reading 'error')").
Proof.
  split; [reflexivity |]. split; [| reflexivity].
  intros [c H]. discriminate H.
Qed.

(** The scenarios D and E of the specification. *)
Example toContent_scenario_D :
  toContent (VObject [("error", VString "not found")])
  = Return (one_text "Error: not found").
Proof. reflexivity. Qed.

Example toContent_scenario_E :
  toContent (VObject [("error", VObject [("code", VString "X");
                                         ("message", VString "bad id")])])
  = Return (one_text "Error: bad id").
Proof. reflexivity. Qed.

(** A body that is the JSON [null] is handed over like any other and
    makes the renderer throw. *)
Example toContent_null :
  toContent VNull
  = Throw (TypeError "Cannot read properties of null (reading 'error')").
Proof. reflexivity. Qed.

(** The error object that the helper makes up renders its message, or its
    own encoding when the cause stringifies to nothing. *)
Lemma toContent_NETWORK_ERROR (message : string) :
  toContent (NETWORK_ERROR message)
  = Return (one_text
              ("Error: " ++
               (if message =? ""
                then "{" ++ dquote ++ "code" ++ dquote ++ ":" ++ dquote
                         ++ "NETWORK_ERROR" ++ dquote ++ "," ++ dquote
                         ++ "message" ++ dquote ++ ":" ++ dquote ++ dquote ++ "}"
                else message))).
Proof. destruct message; reflexivity. Qed.

Lemma truthy_member_has_field (json : value) (k : string) :
  truthy (member json k) = true -> has_field json k = true.
Proof.
  destruct json; cbn; try discriminate.
  unfold get. destruct (lookup k props); [reflexivity | discriminate].
Qed.

(** C5, as amended.  A result whose [error] is truthy renders as exactly
    one text block, "Error: " followed by: the error itself when it is a
    string; the string form of the error's [message] when the error is not
    a string and that message is truthy (not absent, null, false, 0 or
    empty), which is the message itself when it is a string; the JSON
    encoding of the error otherwise.  When the truthy message has no
    string form (an object owning a [toString] property), the renderer
    throws instead. *)
Theorem failure_rendering (result : Props) (error : value) :
  lookup "error" result = Some error ->
  truthy error = true ->
  (forall s, error = VString s ->
             toContent (VObject result) = Return (one_text ("Error: " ++ s)))
  /\ (forall o m, error = VObject o -> lookup "message" o = Some m ->
                  truthy m = true ->
                  (forall shown, ToString m = Return shown ->
                     toContent (VObject result)
                     = Return (one_text ("Error: " ++ shown)))
                  /\ (forall s, m = VString s ->
                        toContent (VObject result)
                        = Return (one_text ("Error: " ++ s)))
                  /\ (forall e, ToString m = Throw e ->
                        toContent (VObject result) = Throw e))
  /\ (is_string error = false -> truthy (member error "message") = false ->
      exists j, JSON_stringify error = Some j
                /\ toContent (VObject result)
                   = Return (one_text ("Error: " ++ j))).
Proof.
  intros L T.
  assert (G : member (VObject result) "error" = error)
    by (cbn; unfold get; now rewrite L).
  assert (R : toContent (VObject result)
              = and_then (ToString (shown_message (VObject result)))
                         (fun shown => Return (one_text ("Error: " ++ shown))))
    by (apply toContent_failure; [reflexivity | now rewrite G]).
  rewrite R. clear R.
  assert (C := shown_message_cases (VObject result)).
  unfold message_of in C. rewrite G in C. specialize (C T).
  split; [| split].
  - intros s ->. destruct C as [[_ ->] | [(S & _) | (S & _)]];
      [reflexivity | discriminate S | discriminate S].
  - intros o m -> Lm Tm.
    assert (Gm : member (VObject o) "message" = m)
      by (cbn; unfold get; now rewrite Lm).
    rewrite Gm in C.
    destruct C as [[S _] | [(_ & _ & ->) | (_ & F & _)]];
      [discriminate S | | congruence].
    split; [| split].
    + now intros shown ->.
    + now intros s ->.
    + now intros e ->.
  - intros S M.
    destruct C as [[S' _] | [(_ & M' & _) | (_ & _ & j & J & ->)]];
      [congruence | congruence |].
    exists j. auto.
Qed.

Lemma failure_rendering_witness :
  lookup "error" [("error", error_bad_id)] = Some error_bad_id
  /\ truthy error_bad_id = true
  /\ toContent (VObject [("error", error_bad_id)])
     = Return (one_text "Error: bad id").
Proof.
  split; [reflexivity |]. split; [reflexivity |].
  destruct (failure_rendering [("error", error_bad_id)] error_bad_id
              eq_refl eq_refl) as [_ [M _]].
  destruct (M _ _ eq_refl eq_refl eq_refl) as [_ [S _]].
  exact (S _ eq_refl).
Defined.

(** C5, as stated, fails when the error is a structured object whose
    message is the empty string: the specification asks for "Error: "
    followed by that message, the code prints the JSON encoding of the
    error object. *)
Lemma failure_rendering_empty_message :
  truthy error_empty_message = true
  /\ spec_error_message error_empty_message = Some ""
  /\ toContent (VObject [("error", error_empty_message)])
     = Return (one_text ("Error: {" ++ dquote ++ "code" ++ dquote ++ ":"
                           ++ dquote ++ "X" ++ dquote ++ "," ++ dquote
                           ++ "message" ++ dquote ++ ":" ++ dquote ++ dquote
                           ++ "}"))
  /\ ~ (exists msg,
          spec_error_message error_empty_message = Some msg
          /\ toContent (VObject [("error", error_empty_message)])
             = Return (one_text ("Error: " ++ msg))).
Proof.
  split; [reflexivity |]. split; [reflexivity |]. split; [reflexivity |].
  intros [msg [S R]]. cbn in S. injection S as <-. discriminate R.
Qed.
(** ** Round trips through the transport *)

Section RoundTrip.

Variable env : Env.
Variable transport : string -> RequestInit -> Completion Response.

(** C4.  When the transport fails, the helper does not throw: it
    resolves to an error object with the code NETWORK_ERROR and the
    stringified cause as message; a handler, which renders what the
    helper resolves to, then completes normally with exactly one text
    block that starts with "Error: " (followed by the stringified cause
    unless that is empty). *)
Theorem transport_failure_rendered
        (path : string) (method : option string) (body : value)
        (log : list Request) (cause : JsError) :
  answer transport (request_of env path method body) = Throw cause ->
  fetchApi env transport path method body log
  = (Return (VObject [("error",
                       VObject [("code", VString "NETWORK_ERROR");
                                ("message", VString (String_error cause))])]),
     List.app log [request_of env path method body])
  /\ exists msg : string,
       respond env transport path method body log
       = (Return (one_text ("Error: " ++ msg)),
          List.app log [request_of env path method body])
       /\ renders_failure (fst (respond env transport path method body log))
          = true
       /\ (String_error cause <> "" -> msg = String_error cause).
Proof.
  intros F.
  rewrite fetchApi_run, respond_run, F. cbn [settled fst].
  split; [reflexivity |].
  rewrite toContent_NETWORK_ERROR.
  eexists. split; [reflexivity |]. split; [reflexivity |].
  intros NE. destruct (String_error cause =? "") eqn:E; [| reflexivity].
  apply String.eqb_eq in E. contradiction.
Qed.

(** C10.  When the round trip succeeds and the body is not JSON, so that
    awaiting [res.json()] rejects, the helper does not throw either: the
    same handler catches the rejection and the helper resolves to the
    error object with the code NETWORK_ERROR and the stringified parse
    error as message, exactly as if the transport had failed with that
    error. *)
Theorem unparsable_body_is_NETWORK_ERROR
        (path : string) (method : option string) (body : value)
        (log : list Request) (res : Response) (cause : JsError) :
  answer transport (request_of env path method body) = Return res ->
  res_json res = Throw cause ->
  fetchApi env transport path method body log
  = (Return (VObject [("error",
                       VObject [("code", VString "NETWORK_ERROR");
                                ("message", VString (String_error cause))])]),
     List.app log [request_of env path method body])
  /\ fetchApi env transport path method body log
     = fetchApi env (fun _ _ => Throw cause) path method body log.
Proof.
  intros F J.
  rewrite !fetchApi_run, F. cbn [settled]. rewrite J. auto.
Qed.

(** C2, as amended.  On a successful round trip the parsed body is what
    the helper resolves to, unchanged and whatever the status.  What is
    rendered from it is a Failure exactly when its [error] property is
    truthy (which needs an [error] field, but a field holding null, false,
    0 or the empty string does not count) and the text to show has a
    string form; that is always so when the error is a string or its
    message is a string.  A body whose [error] is truthy is never rendered
    as a Success: when the text has no string form the handler throws.  A
    body other than null whose [error] is not truthy is rendered as a
    Success. *)
Theorem response_classified_by_truthy_error
        (path : string) (method : option string) (body : value)
        (log : list Request) (status : Z) (json : value) :
  answer transport (request_of env path method body)
  = Return (mkResponse status (Return json)) ->
  fetchApi env transport path method body log
  = (Return json, List.app log [request_of env path method body])
  /\ fst (respond env transport path method body log) = toContent json
  /\ (renders_failure (toContent json) = true
      <-> truthy (member json "error") = true
          /\ exists shown, ToString (shown_message json) = Return shown)
  /\ (renders_failure (toContent json) = true ->
      has_field json "error" = true)
  /\ (truthy (member json "error") = true ->
      (is_string (member json "error") = true
       \/ is_string (message_of json) = true) ->
      renders_failure (toContent json) = true)
  /\ (truthy (member json "error") = true ->
      renders_failure (toContent json) = true
      \/ exists e, unprintable_message json e /\ toContent json = Throw e)
  /\ (nullish json = false -> truthy (member json "error") = false ->
      exists s,
        JSON_stringify_pretty (js_coalesce (member json "data") json) = Some s
        /\ toContent json = Return (one_text s)).
Proof.
  intros F.
  rewrite fetchApi_run, respond_run, F. cbn [settled res_json fst].
  split; [reflexivity |]. split; [reflexivity |].
  split; [apply renders_failure_iff |].
  split.
  { intros R. apply renders_failure_iff in R as [T _].
    now apply truthy_member_has_field. }
  split.
  { intros T S. apply renders_failure_iff. split; [exact T |].
    destruct (shown_message_cases json T)
      as [[E ->] | [(E & M & ->) | (E & M & j & _ & ->)]].
    - destruct (member json "error"); try discriminate E. cbn. eauto.
    - destruct S as [S | S]; [congruence |].
      destruct (message_of json); try discriminate S. cbn. eauto.
    - cbn. eauto. }
  split.
  { intros T.
    assert (N : nullish json = false)
      by (destruct json; try reflexivity; discriminate T).
    destruct (ToString (shown_message json)) as [shown | e] eqn:S.
    - left. apply renders_failure_iff. eauto.
    - right. exists e.
      assert (E : toContent json = Throw e)
        by (rewrite toContent_failure by assumption; now rewrite S).
      split; [| exact E].
      apply toContent_throws_iff in E as [[N' _] | U];
        [congruence | exact U]. }
  intros N T. now apply toContent_success_block.
Qed.

(** C3, as amended.  A response without an [error] field is rendered as
    exactly one text block: the JSON of its [data] field, indented by two
    spaces, when that field is present and not null, and the indented
    JSON of the whole payload when the field is absent or null.  So a
    round trip whose body has a non-null [data] gives back that [data]
    re-serialized. *)
Theorem success_rendering
        (path : string) (method : option string) (body : value)
        (log : list Request) (status : Z) (payload : Props) :
  answer transport (request_of env path method body)
  = Return (mkResponse status (Return (VObject payload))) ->
  lookup "error" payload = None ->
  exists s : string,
    toContent (VObject payload) = Return (one_text s)
    /\ respond env transport path method body log
       = (Return (one_text s), List.app log [request_of env path method body])
    /\ (forall data, lookup "data" payload = Some data ->
                     nullish data = false ->
                     JSON_stringify_pretty data = Some s)
    /\ (forall data, lookup "data" payload = Some data ->
                     nullish data = true ->
                     JSON_stringify_pretty (VObject payload) = Some s)
    /\ (lookup "data" payload = None ->
        JSON_stringify_pretty (VObject payload) = Some s).
Proof.
  intros F L.
  rewrite respond_run, F. cbn [settled res_json].
  assert (T : truthy (member (VObject payload) "error") = false)
    by (cbn; unfold get; now rewrite L).
  rewrite toContent_success by auto.
  destruct (SerializeJSON_defined "  " "" _
              (js_coalesce_defined (member (VObject payload) "data")
                                   (VObject payload) eq_refl)) as [s Hs].
  exists s. unfold JSON_stringify_pretty in *. rewrite Hs.
  split; [reflexivity |]. split; [reflexivity |].
  cbn [member] in Hs. unfold get, js_coalesce in Hs.
  repeat split.
  - intros data D N. now rewrite D, N in Hs.
  - intros data D N. now rewrite D, N in Hs.
  - intros D. now rewrite D in Hs.
Qed.

End RoundTrip.

Lemma transport_failure_rendered_witness :
  answer transport_down (request_of sample_env "/contacts" None VUndefined)
  = Throw (TypeError "fetch failed")
  /\ outcome (respond sample_env transport_down "/contacts" None VUndefined)
     = Return (one_text "Error: TypeError: fetch failed").
Proof.
  split; [reflexivity |].
  destruct (transport_failure_rendered sample_env transport_down
              "/contacts" None VUndefined [] (TypeError "fetch failed")
              eq_refl) as [_ [msg [R [_ M]]]].
  unfold outcome. rewrite R. cbn [fst].
  rewrite M; [reflexivity | discriminate].
Defined.

Lemma unparsable_body_is_NETWORK_ERROR_witness :
  answer (transport_answers 502 (Throw not_json))
         (request_of sample_env "/contacts" (Some "POST")
                     (VObject [("first_name", VString "Ada")]))
  = Return (mkResponse 502 (Throw not_json))
  /\ outcome (fetchApi sample_env (transport_answers 502 (Throw not_json))
                       "/contacts" (Some "POST")
                       (VObject [("first_name", VString "Ada")]))
     = Return (NETWORK_ERROR
                 "SyntaxError: Unexpected token < in JSON at position 0").
Proof.
  split; [reflexivity |].
  destruct (unparsable_body_is_NETWORK_ERROR sample_env
              (transport_answers 502 (Throw not_json))
              "/contacts" (Some "POST")
              (VObject [("first_name", VString "Ada")]) []
              (mkResponse 502 (Throw not_json)) not_json
              eq_refl eq_refl) as [R _].
  unfold outcome. rewrite R. reflexivity.
Defined.

Lemma response_classified_by_truthy_error_witness :
  answer (transport_answers 404 (Return (VObject [("error", error_bad_id)])))
         (request_of sample_env ("/contacts/" ++ sample_id) None VUndefined)
  = Return (mkResponse 404 (Return (VObject [("error", error_bad_id)])))
  /\ outcome (fetchApi sample_env
                (transport_answers 404
                   (Return (VObject [("error", error_bad_id)])))
                ("/contacts/" ++ sample_id) None VUndefined)
     = Return (VObject [("error", error_bad_id)])
  /\ renders_failure (toContent (VObject [("error", error_bad_id)])) = true.
Proof.
  split; [reflexivity |].
  destruct (response_classified_by_truthy_error sample_env
              (transport_answers 404
                 (Return (VObject [("error", error_bad_id)])))
              ("/contacts/" ++ sample_id) None VUndefined [] 404
              (VObject [("error", error_bad_id)]) eq_refl)
    as [R [_ [C _]]].
  unfold outcome. rewrite R. split; [reflexivity |].
  apply C. split; [reflexivity |]. exists "bad id". reflexivity.
Defined.

(** C2, as stated, fails on a body that contains an [error] field holding
    the empty string or null (or false, 0): it is rendered as a Success. *)
Lemma error_field_falsy_is_success :
  (has_field body_error_empty "error" = true
   /\ toContent body_error_empty
      = Return (one_text ("{" ++ nl ++ "  " ++ dquote ++ "id" ++ dquote
                            ++ ": 7" ++ nl ++ "}"))
   /\ ~ (renders_failure (toContent body_error_empty) = true
         <-> has_field body_error_empty "error" = true))
  /\ (has_field body_error_null "error" = true
      /\ toContent body_error_null
         = Return (one_text ("{" ++ nl ++ "  " ++ dquote ++ "id" ++ dquote
                               ++ ": 7" ++ nl ++ "}"))
      /\ ~ (renders_failure (toContent body_error_null) = true
            <-> has_field body_error_null "error" = true)).
Proof.
  split; (split; [reflexivity |]; split; [reflexivity |]);
    intros [_ H]; specialize (H eq_refl); discriminate H.
Qed.

Lemma success_rendering_witness :
  answer (transport_answers 200 (Return (VObject payload_contacts)))
         (request_of sample_env "/contacts" None VUndefined)
  = Return (mkResponse 200 (Return (VObject payload_contacts)))
  /\ lookup "error" payload_contacts = None
  /\ exists s,
       outcome (respond sample_env
                  (transport_answers 200 (Return (VObject payload_contacts)))
                  "/contacts" None VUndefined)
       = Return (one_text s)
       /\ JSON_stringify_pretty (get payload_contacts "data") = Some s.
Proof.
  split; [reflexivity |]. split; [reflexivity |].
  destruct (success_rendering sample_env
              (transport_answers 200 (Return (VObject payload_contacts)))
              "/contacts" None VUndefined [] 200 payload_contacts
              eq_refl eq_refl) as [s [_ [R [D _]]]].
  exists s. unfold outcome. rewrite R. split; [reflexivity |].
  apply D; reflexivity.
Defined.

(** C3, as stated, fails on a response whose [data] field is present and
    null: the text is the JSON of the whole payload, not of the field. *)
Lemma data_null_renders_payload :
  lookup "error" payload_data_null = None
  /\ lookup "data" payload_data_null = Some VNull
  /\ spec_success_payload payload_data_null = VNull
  /\ JSON_stringify_pretty VNull = Some "null"
  /\ toContent (VObject payload_data_null)
     = Return (one_text ("{" ++ nl ++ "  " ++ dquote ++ "data" ++ dquote
                           ++ ": null," ++ nl ++ "  " ++ dquote ++ "meta"
                           ++ dquote ++ ": {" ++ nl ++ "    " ++ dquote
                           ++ "total" ++ dquote ++ ": 0" ++ nl ++ "  }"
                           ++ nl ++ "}"))
  /\ toContent (VObject payload_data_null)
     <> Return (mkContent
                  [mkBlock "text"
                     (JSON_stringify_pretty
                        (spec_success_payload payload_data_null))]).
Proof.
  repeat (split; [reflexivity |]). discriminate.
Qed.

(** ** Tool handlers *)

Lemma append_empty_r (s : string) : s ++ "" = s.
Proof. induction s as [| c s IH]; cbn; [reflexivity | now rewrite IH]. Qed.

(** A handler whose path is built without a throw goes on to its one
    call. *)
Lemma bind_lift_return {A B : Type} (a : A) (k : A -> M B) :
  bind (lift (Return a)) k = k a.
Proof. reflexivity. Qed.

Lemma bind_lift_throw {A B : Type} (e : JsError) (k : A -> M B)
      (log : list Request) :
  bind (lift (Throw e)) k log = (Throw e, log).
Proof. reflexivity. Qed.

Lemma lookup_omit_same (k : string) (o : Props) :
  lookup k (omit k o) = None.
Proof.
  unfold omit. induction o as [| [k0 v] o IH]; cbn; [reflexivity |].
  destruct (k0 =? k) eqn:E; cbn; [exact IH |].
  now rewrite E.
Qed.

Lemma lookup_omit_other (k k' : string) (o : Props) :
  k' <> k -> lookup k' (omit k o) = lookup k' o.
Proof.
  intros NE. unfold omit.
  induction o as [| [k0 v] o IH]; cbn; [reflexivity |].
  destruct (k0 =? k) eqn:E; cbn.
  - apply String.eqb_eq in E; subst k0.
    destruct (k =? k') eqn:E'; [| exact IH].
    apply String.eqb_eq in E'. congruence.
  - now rewrite IH.
Qed.

Section Handlers.

Variable env : Env.
Variable transport : string -> RequestInit -> Completion Response.

(** What a handler of the form [({ id, ...body }) => toContent(await
    fetchApi(path, method, body))] sends. *)
Lemma rest_handler_sends (args : Props) (method path : string) :
  (method =? "GET") = false ->
  sends_rest_as_body env args method path
    (issued (respond env transport path (Some method)
                     (VObject (omit "id" args)))).
Proof.
  intros NG. unfold issued. rewrite respond_run. cbn [snd List.app].
  unfold request_of. cbn [method_or_GET].
  rewrite build_init_object by assumption.
  destruct (SerializeJSON_defined "" "" (VObject (omit "id" args)) eq_refl)
    as [encoded E].
  exists (omit "id" args), encoded. unfold JSON_stringify. rewrite E.
  split; [reflexivity |]. split; [reflexivity |].
  split; [apply lookup_omit_same |].
  split; [intros k NE; now apply lookup_omit_other | reflexivity].
Qed.

(** What a handler of the form [toContent(await fetchApi(path, method))]
    sends. *)
Lemma bodyless_handler_sends (method path : string) :
  sends_without_body env method path
    (issued (respond env transport path (Some method) VUndefined)).
Proof.
  unfold issued, sends_without_body. rewrite respond_run. reflexivity.
Qed.

Ltac splice_id H :=
  unfold update_contact, update_company, update_entry, update_task,
    update_note, snooze_task, link_tag, unlink_tag,
    delete_company, delete_note;
  cbv zeta; rewrite H; cbn [ToString]; rewrite ?bind_lift_return.

(** C7.  [delete_company] and [delete_note] send one DELETE request
    without a body; its path ends with the literal [?permanent=true] when
    the [permanent] argument is true, and carries no query string when
    the argument is false or absent. *)
Theorem permanent_flag_appends_literal (args : Props) (id : string) :
  get args "id" = VString id ->
  (get args "permanent" = VBool true ->
     sends_without_body env "DELETE"
       ("/companies/" ++ id ++ "?permanent=true")
       (issued (delete_company env transport args))
     /\ sends_without_body env "DELETE"
          ("/notes/" ++ id ++ "?permanent=true")
          (issued (delete_note env transport args)))
  /\ (get args "permanent" = VBool false \/ lookup "permanent" args = None ->
        sends_without_body env "DELETE" ("/companies/" ++ id)
          (issued (delete_company env transport args))
        /\ sends_without_body env "DELETE" ("/notes/" ++ id)
             (issued (delete_note env transport args))).
Proof.
  intros I. split.
  - intros P. splice_id I. rewrite P. cbn [truthy].
    split; apply bodyless_handler_sends.
  - intros P.
    assert (F : truthy (get args "permanent") = false).
    { destruct P as [-> | N]; [reflexivity |].
      unfold get. now rewrite N. }
    splice_id I. rewrite F.
    rewrite append_empty_r.
    split; apply bodyless_handler_sends.
Qed.

(** C8.  Each operation that takes an [id] path parameter and forwards
    the rest (the five updates, and likewise [snooze_task], [link_tag]
    and [unlink_tag]) sends one request whose path has the [id] spliced
    in and whose body is the JSON encoding of the arguments without
    [id]: every other argument is there, unchanged and in the same
    order. *)
Theorem id_spliced_rest_forwarded (args : Props) (id : string) :
  get args "id" = VString id ->
  sends_rest_as_body env args "PATCH" ("/contacts/" ++ id)
    (issued (update_contact env transport args))
  /\ sends_rest_as_body env args "PATCH" ("/companies/" ++ id)
       (issued (update_company env transport args))
  /\ sends_rest_as_body env args "PATCH" ("/entries/" ++ id)
       (issued (update_entry env transport args))
  /\ sends_rest_as_body env args "PATCH" ("/tasks/" ++ id)
       (issued (update_task env transport args))
  /\ sends_rest_as_body env args "PATCH" ("/notes/" ++ id)
       (issued (update_note env transport args))
  /\ sends_rest_as_body env args "POST" ("/tasks/" ++ id ++ "/snooze")
       (issued (snooze_task env transport args))
  /\ sends_rest_as_body env args "POST" ("/tags/" ++ id ++ "/link")
       (issued (link_tag env transport args))
  /\ sends_rest_as_body env args "POST" ("/tags/" ++ id ++ "/unlink")
       (issued (unlink_tag env transport args)).
Proof.
  intros I. splice_id I.
  repeat split; now apply rest_handler_sends.
Qed.

End Handlers.

Lemma permanent_flag_appends_literal_witness :
  get args_delete_permanent "id" = VString sample_id
  /\ get args_delete_permanent "permanent" = VBool true
  /\ sends_without_body sample_env "DELETE"
       ("/companies/" ++ sample_id ++ "?permanent=true")
       (issued (delete_company sample_env transport_down args_delete_permanent)).
Proof.
  split; [reflexivity |]. split; [reflexivity |].
  destruct (permanent_flag_appends_literal sample_env transport_down
              args_delete_permanent sample_id eq_refl) as [T _].
  exact (proj1 (T eq_refl)).
Defined.

Lemma id_spliced_rest_forwarded_witness :
  get args_update_contact "id" = VString sample_id
  /\ sends_rest_as_body sample_env args_update_contact "PATCH"
       ("/contacts/" ++ sample_id)
       (issued (update_contact sample_env transport_down args_update_contact)).
Proof.
  split; [reflexivity |].
  exact (proj1 (id_spliced_rest_forwarded sample_env transport_down
                  args_update_contact sample_id eq_refl)).
Defined.

(** The scenarios A and C of the specification, and what [update_contact]
    puts on the wire, by evaluation. *)
Example create_contact_scenario_A :
  issued (create_contact sample_env transport_down
            [("first_name", VString "Ada"); ("last_name", VString "Lovelace")])
  = [mkRequest "https://app.keepsake.place/api/v1/contacts"
       (mkInit "POST"
          [("Authorization", "Bearer ks_live_0123456789");
           ("Content-Type", "application/json")]
          (Some ("{" ++ dquote ++ "first_name" ++ dquote ++ ":" ++ dquote
                   ++ "Ada" ++ dquote ++ "," ++ dquote ++ "last_name" ++ dquote
                   ++ ":" ++ dquote ++ "Lovelace" ++ dquote ++ "}")))].
Proof. reflexivity. Qed.

Example delete_company_scenario_C :
  issued (delete_company sample_env transport_down args_delete_permanent)
  = [mkRequest
       ("https://app.keepsake.place/api/v1/companies/" ++ sample_id
          ++ "?permanent=true")
       (mkInit "DELETE"
          [("Authorization", "Bearer ks_live_0123456789");
           ("Content-Type", "application/json")]
          None)].
Proof. reflexivity. Qed.

Example update_contact_on_the_wire :
  issued (update_contact sample_env transport_down args_update_contact)
  = [mkRequest
       ("https://app.keepsake.place/api/v1/contacts/" ++ sample_id)
       (mkInit "PATCH"
          [("Authorization", "Bearer ks_live_0123456789");
           ("Content-Type", "application/json")]
          (Some ("{" ++ dquote ++ "first_name" ++ dquote ++ ":" ++ dquote
                   ++ "Ada" ++ dquote ++ "," ++ dquote ++ "email" ++ dquote
                   ++ ":" ++ dquote ++ "ada@example.org" ++ dquote ++ "}")))].
Proof. reflexivity. Qed.

Example list_contacts_scenario_B :
  map req_url
      (issued (list_contacts sample_env transport_down
                 [("limit", VNumber 5);
                  ("include_last_interaction", VBool false)]))
  = ["https://app.keepsake.place/api/v1/contacts?limit=5&include_last_interaction=false"].
Proof. reflexivity. Qed.

(* ================================================================== *)
(** * Further properties of the code                                   *)
(* ================================================================== *)

(** ** The query string, read back *)

Lemma hex_digit_upper_unreserved (d : nat) :
  uri_unreserved (hex_digit true d) = true.
Proof. do 16 (destruct d as [| d]; [reflexivity |]). reflexivity. Qed.

Lemma string_forallb_app (p : ascii -> bool) (s t : string) :
  string_forallb p (s ++ t) = string_forallb p s && string_forallb p t.
Proof.
  induction s as [| c s IH]; cbn; [reflexivity |].
  now rewrite IH, andb_assoc.
Qed.

(** An encoded component holds only unreserved characters and percent
    escapes: no [&], [=] or [?] of its own. *)
Lemma encodeURIComponent_chars (s t : string) :
  encodeURIComponent s = Return t ->
  string_forallb uri_component_char t = true.
Proof.
  revert t. induction s as [| c s IH]; cbn; intros t H.
  - now injection H as <-.
  - destruct (lone_surrogate_at c s); [discriminate |].
    destruct (encodeURIComponent s) as [encoded |]; cbn in H; [| discriminate].
    injection H as <-.
    rewrite string_forallb_app, (IH encoded eq_refl), andb_true_r.
    destruct (uri_unreserved c) eqn:E; cbn.
    + unfold uri_component_char. now rewrite E.
    + unfold uri_component_char.
      now rewrite !hex_digit_upper_unreserved.
Qed.

Lemma percent_decode_step (c : ascii) (r : string) :
  percent_decode
    ((if uri_unreserved c then String c "" else percent_octet c) ++ r)
  = option_map (String c) (percent_decode r).
Proof.
  destruct c as [[|] [|] [|] [|] [|] [|] [|] [|]]; reflexivity.
Qed.

Lemma percent_decode_encode (s t : string) :
  encodeURIComponent s = Return t -> percent_decode t = Some s.
Proof.
  revert t. induction s as [| c s IH]; cbn; intros t H.
  - now injection H as <-.
  - destruct (lone_surrogate_at c s); [discriminate |].
    destruct (encodeURIComponent s) as [encoded |]; cbn in H; [| discriminate].
    injection H as <-.
    now rewrite percent_decode_step, (IH encoded eq_refl).
Qed.

Lemma component_char_not (sep c : ascii) :
  uri_component_char sep = false -> uri_component_char c = true ->
  Ascii.eqb c sep = false.
Proof.
  intros S C. destruct (Ascii.eqb_spec c sep); [congruence | reflexivity].
Qed.

Lemma cut_at_first (sep : ascii) (a b : string) :
  string_forallb (fun c => negb (Ascii.eqb c sep)) a = true ->
  cut_at sep (a ++ String sep b) = Some (a, b).
Proof.
  induction a as [| c a IH]; cbn.
  - now rewrite Ascii.eqb_refl.
  - intros H. apply andb_prop in H as [H1 H2].
    apply negb_true_iff in H1. rewrite H1, (IH H2). reflexivity.
Qed.

Lemma split_on_none (sep : ascii) (a : string) :
  string_forallb (fun c => negb (Ascii.eqb c sep)) a = true ->
  split_on sep a = [a].
Proof.
  induction a as [| c a IH]; cbn; [reflexivity |].
  intros H. apply andb_prop in H as [H1 H2].
  apply negb_true_iff in H1. now rewrite H1, (IH H2).
Qed.

Lemma split_on_first (sep : ascii) (a b : string) :
  string_forallb (fun c => negb (Ascii.eqb c sep)) a = true ->
  split_on sep (a ++ String sep b) = a :: split_on sep b.
Proof.
  induction a as [| c a IH]; cbn.
  - now rewrite Ascii.eqb_refl.
  - intros H. apply andb_prop in H as [H1 H2].
    apply negb_true_iff in H1. now rewrite H1, (IH H2).
Qed.

Lemma split_on_join (sep : ascii) (parts : list string) :
  parts <> [] ->
  Forall (fun p => string_forallb (fun c => negb (Ascii.eqb c sep)) p = true)
         parts ->
  split_on sep (join (String sep "") parts) = parts.
Proof.
  intros NE F. induction F as [| p rest Hp F IH]; [congruence |].
  destruct rest as [| q rest].
  - cbn. now apply split_on_none.
  - change (join (String sep "") (p :: q :: rest))
      with (p ++ String sep (join (String sep "") (q :: rest))).
    rewrite split_on_first by assumption.
    now rewrite IH.
Qed.

Lemma string_forallb_impl (p q : ascii -> bool) (s : string) :
  (forall c, p c = true -> q c = true) ->
  string_forallb p s = true -> string_forallb q s = true.
Proof.
  intros I. induction s as [| c s IH]; cbn; [reflexivity |].
  intros H. apply andb_prop in H as [H1 H2].
  now rewrite (I c H1), (IH H2).
Qed.

Lemma encoded_free_of (sep : ascii) (s t : string) :
  uri_component_char sep = false ->
  encodeURIComponent s = Return t ->
  string_forallb (fun c => negb (Ascii.eqb c sep)) t = true.
Proof.
  intros S E.
  apply string_forallb_impl with (p := uri_component_char);
    [| exact (encodeURIComponent_chars s t E)].
  intros c C. now rewrite (component_char_not sep c S C).
Qed.

(** What each part written by [qs] reads back as, and why it cannot be
    split in two. *)
Lemma qs_pair_reads_back (kv : string * value) (part : string) :
  qs_pair kv = Return part ->
  exists shown,
    ToString (snd kv) = Return shown
    /\ parse_pair part = Some (fst kv, shown)
    /\ string_forallb (fun c => negb (Ascii.eqb c "&")) part = true
    /\ string_forallb query_char part = true.
Proof.
  unfold qs_pair. intros H.
  destruct (encodeURIComponent (fst kv)) as [key |] eqn:K; cbn in H;
    [| discriminate].
  destruct (ToString (snd kv)) as [shown |] eqn:S; cbn in H; [| discriminate].
  destruct (encodeURIComponent shown) as [val |] eqn:V; cbn in H;
    [| discriminate].
  injection H as <-. exists shown. split; [reflexivity |].
  assert (Q : forall s t, encodeURIComponent s = Return t ->
                          string_forallb query_char t = true).
  { intros s t E. apply string_forallb_impl with (p := uri_component_char);
      [| exact (encodeURIComponent_chars s t E)].
    intros c Hc. unfold query_char. now rewrite Hc. }
  split; [| split].
  - unfold parse_pair.
    change (key ++ "=" ++ val) with (key ++ String "=" val).
    rewrite cut_at_first by (now apply (encoded_free_of "=" (fst kv))).
    now rewrite (percent_decode_encode _ _ K), (percent_decode_encode _ _ V).
  - rewrite string_forallb_app, (encoded_free_of "&" _ _ eq_refl K). cbn.
    exact (encoded_free_of "&" _ _ eq_refl V).
  - rewrite string_forallb_app, (Q _ _ K). cbn. exact (Q _ _ V).
Qed.

Lemma string_forallb_join (p : ascii -> bool) (sep : string)
      (parts : list string) :
  string_forallb p sep = true ->
  Forall (fun s => string_forallb p s = true) parts ->
  string_forallb p (join sep parts) = true.
Proof.
  intros S F. induction F as [| s rest Hs F IH]; [reflexivity |].
  destruct rest as [| t rest]; [exact Hs |].
  change (join sep (s :: t :: rest)) with (s ++ sep ++ join sep (t :: rest)).
  now rewrite !string_forallb_app, Hs, S, IH.
Qed.

(** What [qs] returns, with the parts it is made of. *)
Lemma qs_returned (params : Props) (s : string) :
  qs params = Return s ->
  exists parts,
    Forall2 (fun kv part => qs_pair kv = Return part)
            (filter (fun kv => qs_keeps (snd kv)) params) parts
    /\ s = match parts with
           | [] => ""
           | _ => "?" ++ join "&" parts
           end.
Proof.
  rewrite qs_unfolded. intros H.
  destruct (sequence _) as [parts |] eqn:E; cbn in H; [| discriminate].
  injection H as <-. exists parts. split; [| reflexivity].
  now apply sequence_returns.
Qed.

(** X5.  Whenever [qs] returns, splitting what it returns at [&], cutting
    each part at its first [=] and percent-decoding gives back, in order,
    exactly the parameters that [qs] keeps, each with its key and the
    string form of its value: nothing is lost, and no key or value can
    pass for a separator. *)
Theorem qs_round_trip (params : Props) (s : string) :
  qs params = Return s ->
  exists pairs : list (string * string),
    parse_query s = Some pairs
    /\ Forall2 (fun kv pair => fst pair = fst kv
                               /\ ToString (snd kv) = Return (snd pair))
               (filter (fun kv => qs_keeps (snd kv)) params) pairs.
Proof.
  intros H. apply qs_returned in H as (parts & F & ->).
  assert (P : exists pairs,
             all_some (map parse_pair parts) = Some pairs
             /\ Forall2 (fun kv pair => fst pair = fst kv
                                        /\ ToString (snd kv)
                                           = Return (snd pair))
                        (filter (fun kv => qs_keeps (snd kv)) params) pairs).
  { induction F as [| kv part kept parts Hp _ (pairs & A & IH)].
    - exists []. split; [reflexivity | constructor].
    - destruct (qs_pair_reads_back kv part Hp) as (shown & S & R & _).
      exists ((fst kv, shown) :: pairs). cbn. rewrite R, A.
      split; [reflexivity |]. constructor; auto. }
  destruct P as (pairs & A & P). exists pairs. split; [| exact P].
  destruct parts as [| part parts]; [cbn in A; now injection A as <- |].
  change (parse_query ("?" ++ join "&" (part :: parts)))
    with (all_some (map parse_pair
                        (split_on "&" (join "&" (part :: parts))))).
  rewrite split_on_join; [exact A | discriminate |].
  clear A P. induction F as [| kv p kept ps Hp _ IH]; constructor; auto.
  now destruct (qs_pair_reads_back kv p Hp) as (_ & _ & _ & Amp & _).
Qed.

Lemma qs_round_trip_witness :
  qs [("q", VString "a b&c=d"); ("e", VString ""); ("n", VNumber 0)]
  = Return "?q=a%20b%26c%3Dd&n=0"
  /\ parse_query "?q=a%20b%26c%3Dd&n=0" = Some [("q", "a b&c=d"); ("n", "0")].
Proof.
  split; [reflexivity |].
  destruct (qs_round_trip
              [("q", VString "a b&c=d"); ("e", VString ""); ("n", VNumber 0)]
              "?q=a%20b%26c%3Dd&n=0" eq_refl) as (pairs & P & _).
  rewrite P. vm_compute in P. exact (eq_sym P).
Defined.

(** X4.  Whatever the keys and values, a query string that [qs] returns
    holds only unreserved characters, percent escapes and the separators
    [?], [&] and [=]: no space, [#], [/] or other reserved character
    reaches the URL. *)
Theorem qs_output_url_safe (params : Props) (s : string) :
  qs params = Return s ->
  string_forallb query_char s = true.
Proof.
  intros H. apply qs_returned in H as (parts & F & ->).
  destruct parts as [| part parts]; [reflexivity |].
  change ("?" ++ join "&" (part :: parts))
    with (String "?" (join "&" (part :: parts))).
  cbn [string_forallb].
  rewrite string_forallb_join; [reflexivity | reflexivity |].
  clear -F. induction F as [| kv p kept ps Hp _ IH]; constructor; auto.
  now destruct (qs_pair_reads_back kv p Hp) as (_ & _ & _ & _ & Q).
Qed.

Lemma qs_output_url_safe_witness :
  qs [("q", VString "a b&c=d/#"); ("n", VNumber 0)]
  = Return "?q=a%20b%26c%3Dd%2F%23&n=0"
  /\ string_forallb query_char "?q=a%20b%26c%3Dd%2F%23&n=0" = true.
Proof.
  split; [reflexivity |].
  exact (qs_output_url_safe
           [("q", VString "a b&c=d/#"); ("n", VNumber 0)]
           "?q=a%20b%26c%3Dd%2F%23&n=0" eq_refl).
Defined.

(** ** What the renderer looks at *)

(** X6.  Once the [error] of a result is truthy, the content depends on
    nothing else: [data], [meta] and every other property are ignored. *)
Theorem failure_hides_everything_else (result result' : Props) :
  get result "error" = get result' "error" ->
  truthy (get result "error") = true ->
  toContent (VObject result) = toContent (VObject result').
Proof.
  intros E T.
  rewrite !toContent_failure; cbn [member nullish]; try congruence.
  unfold shown_message, message_of. cbn [member]. now rewrite E.
Qed.

Lemma failure_hides_everything_else_witness :
  get [("error", VString "not found"); ("data", VNumber 1)] "error"
  = get [("meta", VNull); ("error", VString "not found")] "error"
  /\ toContent (VObject [("error", VString "not found"); ("data", VNumber 1)])
     = toContent (VObject [("meta", VNull); ("error", VString "not found")]).
Proof.
  split; [reflexivity |].
  apply (failure_hides_everything_else
           [("error", VString "not found"); ("data", VNumber 1)]
           [("meta", VNull); ("error", VString "not found")]);
    reflexivity.
Defined.

(** X7.  When the [error] of a result is not truthy and its [data] is
    neither null nor missing, the content depends on [data] alone: [meta],
    with the pagination totals, never reaches the text. *)
Theorem success_shows_data_only (result result' : Props) :
  truthy (get result "error") = false ->
  truthy (get result' "error") = false ->
  get result "data" = get result' "data" ->
  nullish (get result "data") = false ->
  toContent (VObject result) = toContent (VObject result').
Proof.
  intros T T' D N.
  rewrite !toContent_success by auto.
  cbn [member]. unfold js_coalesce. rewrite <- D, N. reflexivity.
Qed.

Lemma success_shows_data_only_witness :
  truthy (get payload_contacts "error") = false
  /\ nullish (get payload_contacts "data") = false
  /\ toContent (VObject payload_contacts)
     = toContent (VObject [("data", get payload_contacts "data")]).
Proof.
  split; [reflexivity |]. split; [reflexivity |].
  apply (success_shows_data_only payload_contacts
           [("data", get payload_contacts "data")]); reflexivity.
Defined.

(** X8.  When the [message] of a structured error is itself an object,
    the template literal converts it to a string: the text is
    "Error: [object Object]" whatever that object and the rest of the
    error hold, as long as the object owns no [toString] property; when
    it owns one, the conversion and with it the renderer throw a
    TypeError. *)
Theorem object_message_is_opaque (result error message : Props) :
  lookup "error" result = Some (VObject error) ->
  lookup "message" error = Some (VObject message) ->
  (lookup "toString" message = None ->
   toContent (VObject result) = Return (one_text "Error: [object Object]"))
  /\ (lookup "toString" message <> None ->
      toContent (VObject result)
      = Throw (TypeError "Cannot convert object to primitive value")).
Proof.
  intros E M.
  assert (G : member (VObject result) "error" = VObject error)
    by (cbn; unfold get; now rewrite E).
  rewrite toContent_failure by (try rewrite G; reflexivity).
  unfold shown_message, message_of. rewrite G. cbn [is_string member].
  unfold get. rewrite M. cbn [js_or truthy].
  destruct (ToString_object message) as [R T].
  split; intros L.
  - now rewrite (R L).
  - now rewrite (T L).
Qed.

Lemma object_message_is_opaque_witness :
  toContent (VObject [("error", error_object_message)])
  = Return (one_text "Error: [object Object]")
  /\ toContent (VObject [("error", error_message_owning_toString)])
     = Throw (TypeError "Cannot convert object to primitive value").
Proof.
  split.
  - apply (object_message_is_opaque
             [("error", error_object_message)]
             [("code", VString "E_VALIDATION");
              ("message", VObject [("field", VString "email")])]
             [("field", VString "email")]); reflexivity.
  - apply (object_message_is_opaque
             [("error", error_message_owning_toString)]
             [("message", VObject [("toString", VNumber 1)])]
             [("toString", VNumber 1)]); try reflexivity.
    discriminate.
Defined.

(** ** The helper and the handlers over any transport *)

(** X1.  Whatever the transport does, [fetchApi] completes normally and
    calls [fetch] exactly once: at the base URL followed by the path, with
    the given method (GET by default) and with the Authorization and
    Content-Type headers. *)
Theorem fetchApi_resolves_with_one_call
        (env : Env) (transport : string -> RequestInit -> Completion Response)
        (path : string) (method : option string) (body : value)
        (log : list Request) :
  exists (result : value) (init : RequestInit),
    fetchApi env transport path method body log
    = (Return result, List.app log [mkRequest (API_BASE env ++ path) init])
    /\ init_method init = match method with Some m => m | None => "GET" end
    /\ init_headers init
       = [("Authorization", "Bearer " ++ API_KEY env);
          ("Content-Type", "application/json")].
Proof.
  rewrite fetchApi_run. do 2 eexists. split; [reflexivity |].
  unfold build_init.
  destruct (truthy body && negb (method_or_GET method =? "GET"));
    split; reflexivity.
Qed.

(** X2.  Once its path is built, a handler, which renders what the
    helper resolves to, throws in two cases only, both after a successful
    round trip: the body parsed to null, on which the renderer reads a
    property, or the body has a truthy error whose truthy message has no
    string form.  In every other case, failures of the transport and of
    the parser included, it returns exactly one text block. *)
Theorem handler_throws_only_on_unrenderable_body
        (env : Env) (transport : string -> RequestInit -> Completion Response)
        (path : string) (method : option string) (body : value)
        (log : list Request) :
  (forall e,
     fst (respond env transport path method body log) = Throw e
     <-> exists res json,
           answer transport (request_of env path method body) = Return res
           /\ res_json res = Return json
           /\ ((nullish json = true /\ e = reading_error_of json)
               \/ unprintable_message json e))
  /\ ((exists e, fst (respond env transport path method body log) = Throw e)
      \/ (exists s, fst (respond env transport path method body log)
                    = Return (one_text s)))
  /\ (forall cause,
        answer transport (request_of env path method body) = Throw cause ->
        exists s, fst (respond env transport path method body log)
                  = Return (one_text s))
  /\ (forall res cause,
        answer transport (request_of env path method body) = Return res ->
        res_json res = Throw cause ->
        exists s, fst (respond env transport path method body log)
                  = Return (one_text s)).
Proof.
  rewrite respond_run. cbn [fst].
  split; [| split; [| split]].
  - intros e.
    destruct (answer transport (request_of env path method body))
      as [res | cause] eqn:A; cbn [settled].
    + destruct (res_json res) as [json | cause] eqn:J.
      * rewrite toContent_throws_iff. split.
        -- intros H. exists res, json. auto.
        -- intros (res' & json' & [= <-] & J' & H).
           rewrite J in J'. now injection J' as <-.
      * rewrite toContent_NETWORK_ERROR. split; [discriminate |].
        intros (res' & json' & [= <-] & J' & _). congruence.
    + rewrite toContent_NETWORK_ERROR. split; [discriminate |].
      intros (res' & json' & H & _). discriminate H.
  - destruct (toContent_returns_or_throws
                (settled (answer transport (request_of env path method body))))
      as [R | T]; auto.
  - intros cause ->. cbn [settled]. rewrite toContent_NETWORK_ERROR. eauto.
  - intros res cause -> J. cbn [settled]. rewrite J.
    rewrite toContent_NETWORK_ERROR. eauto.
Qed.

Lemma env_or_set (x : option string) (fallback s : string) :
  x = Some s -> s <> "" -> env_or x fallback = s.
Proof.
  intros -> NE. cbn. apply String.eqb_neq in NE. now rewrite NE.
Qed.

Lemma env_or_unset (x : option string) (fallback : string) :
  x = None \/ x = Some "" -> env_or x fallback = fallback.
Proof. intros [-> | ->]; reflexivity. Qed.

Lemma env_or_cases (x : option string) (fallback : string) :
  (exists s, x = Some s /\ s <> "" /\ env_or x fallback = s)
  \/ ((x = None \/ x = Some "") /\ env_or x fallback = fallback).
Proof.
  destruct x as [s |]; [| right; auto].
  destruct (s =? "") eqn:E.
  - apply String.eqb_eq in E; subst. right; auto.
  - left. exists s. cbn. rewrite E. apply String.eqb_neq in E. auto.
Qed.

(** X3.  The process gets as far as registering its tools exactly when
    KEEPSAKE_API_KEY is set and not empty, and exits with status 1
    otherwise; every request then carries that key as a bearer token.  An
    empty KEEPSAKE_API_URL counts as unset: the base URL is the variable
    when it is set and not empty and the default otherwise, so it is never
    empty. *)
Theorem configuration_resolved
        (env : Env) (transport : string -> RequestInit -> Completion Response) :
  (startup env transport = Registered (tools env transport)
   <-> exists key, KEEPSAKE_API_KEY env = Some key /\ key <> "")
  /\ ((KEEPSAKE_API_KEY env = None \/ KEEPSAKE_API_KEY env = Some "") ->
      exists diagnostic, startup env transport = Exited 1 diagnostic)
  /\ (forall key, KEEPSAKE_API_KEY env = Some key -> key <> "" ->
                  request_headers env
                  = [("Authorization", "Bearer " ++ key);
                     ("Content-Type", "application/json")])
  /\ (forall base, KEEPSAKE_API_URL env = Some base -> base <> "" ->
                   API_BASE env = base)
  /\ ((KEEPSAKE_API_URL env = None \/ KEEPSAKE_API_URL env = Some "") ->
      API_BASE env = "https://app.keepsake.place/api/v1")
  /\ API_BASE env <> "".
Proof.
  split; [| split; [| split; [| split; [| split]]]].
  - unfold startup, API_KEY.
    destruct (env_or_cases (KEEPSAKE_API_KEY env) "")
      as [(k & K & NE & ->) | (U & ->)].
    + apply String.eqb_neq in NE as NE'. rewrite NE'.
      split; [eauto | reflexivity].
    + cbn. split; [discriminate |].
      intros (k & K & NE). destruct U as [U | U]; congruence.
  - intros U. unfold startup, API_KEY.
    rewrite (env_or_unset _ _ U). cbn. eauto.
  - intros k K NE. unfold request_headers, API_KEY.
    now rewrite (env_or_set _ _ _ K NE).
  - intros b B NB. unfold API_BASE. now apply env_or_set.
  - intros U. unfold API_BASE. now apply env_or_unset.
  - unfold API_BASE.
    destruct (env_or_cases (KEEPSAKE_API_URL env)
                "https://app.keepsake.place/api/v1")
      as [(u & _ & NU & ->) | (_ & ->)]; [assumption | discriminate].
Qed.

(** ** The registry as a whole *)

Create HintDb handlers.

#[local] Hint Unfold
  list_contacts get_contact create_contact update_contact delete_contact
  search_contacts list_companies get_company create_company update_company
  delete_company search_companies list_entries create_entry update_entry
  delete_entry list_tasks create_task update_task delete_task complete_task
  uncomplete_task snooze_task list_notes create_note update_note delete_note
  pin_note archive_note restore_note list_days get_day update_day list_tags
  get_tag_items link_tag unlink_tag get_contact_timeline get_tasks_today
  get_tasks_overdue get_changelog search get_agent_instructions : handlers.

(** Runs [tac] on the goal once for each registered tool. *)
Ltac for_each_tool H tac :=
  unfold tools in H; cbn [In] in H;
  repeat (destruct H as [<- | H]; [tac |]);
  contradiction.

Lemma build_init_method (env : Env) (method : string) (body : value) :
  init_method (build_init env method body) = method.
Proof.
  unfold build_init.
  destruct (truthy body && negb (method =? "GET")); reflexivity.
Qed.

Lemma build_init_headers (env : Env) (method : string) (body : value) :
  init_headers (build_init env method body) = request_headers env.
Proof.
  unfold build_init.
  destruct (truthy body && negb (method =? "GET")); reflexivity.
Qed.

Lemma build_init_falsy_body (env : Env) (method : string) (body : value) :
  truthy body = false -> init_body (build_init env method body) = None.
Proof. intros T. unfold build_init. now rewrite T. Qed.

Lemma request_of_well_formed
      (env : Env) (path : string) (method : option string) (body : value) :
  starts_with "/" path = true ->
  In (method_or_GET method) ["GET"; "POST"; "PATCH"; "DELETE"] ->
  (method_or_GET method = "DELETE" -> truthy body = false) ->
  well_formed_request env (request_of env path method body).
Proof.
  intros P M D.
  unfold well_formed_request, request_of. cbn [req_url req_init].
  rewrite build_init_method, build_init_headers.
  split; [eauto |]. split; [assumption |]. split; [reflexivity |].
  intros [G | G].
  - rewrite G, build_init_GET. reflexivity.
  - apply build_init_falsy_body. auto.
Qed.

Lemma request_of_agrees
      (env : Env) (tool : Tool) (path : string) (method : option string)
      (body : value) :
  (method_or_GET method = "GET"
   <-> readOnlyHint (tool_annotations tool) = Some true) ->
  (method_or_GET method = "DELETE" ->
   destructiveHint (tool_annotations tool) = Some true) ->
  (idempotentHint (tool_annotations tool) = Some false ->
   method_or_GET method = "POST") ->
  read_only_agrees tool (request_of env path method body)
  /\ hints_agree tool (request_of env path method body).
Proof.
  intros R D I. unfold read_only_agrees, hints_agree, request_of.
  cbn [req_init]. rewrite build_init_method.
  repeat split; try tauto.
  intros G. rewrite G, build_init_GET. reflexivity.
Qed.

Lemma NoDup_by_nodup (l : list string) :
  nodup string_dec l = l -> NoDup l.
Proof. intros <-. apply NoDup_nodup. Qed.

Lemma qs_returns_when_writable (params : Props) :
  Forall writable_pair params -> exists s, qs params = Return s.
Proof.
  intros F. apply qs_returns_iff.
  apply Forall_forall. intros kv H. apply filter_In in H as [H _].
  revert kv H. now apply Forall_forall.
Qed.

Section Registry.

Variable env : Env.
Variable transport : string -> RequestInit -> Completion Response.

Lemma one_call_or_none_bind (P : Request -> Prop) (A : Type)
      (c : Completion A) (k : A -> M RenderedContent) :
  (forall a, c = Return a -> one_call_or_none P (k a)) ->
  one_call_or_none P (bind (lift c) k).
Proof.
  intros H. destruct c as [a | e].
  - rewrite bind_lift_return. now apply H.
  - left. exists e. intros log. reflexivity.
Qed.

Lemma one_call_or_none_respond (P : Request -> Prop)
      (path : string) (method : option string) (body : value) :
  P (request_of env path method body) ->
  one_call_or_none P (respond env transport path method body).
Proof.
  intros H. right. exists (request_of env path method body).
  split; [exact H |]. intros log. now rewrite respond_run.
Qed.

(** Every tool, on any arguments. *)
Lemma tool_shape (tool : Tool) :
  In tool (tools env transport) ->
  forall args : Props,
    one_call_or_none
      (fun r => well_formed_request env r
                /\ read_only_agrees tool r /\ hints_agree tool r)
      (tool_handler tool args).
Proof.
  intros H args.
  for_each_tool H
    ltac:(cbn [tool_handler]; autounfold with handlers; cbv zeta;
          repeat (apply one_call_or_none_bind; intros ? _);
          apply one_call_or_none_respond;
          split;
          [apply request_of_well_formed;
           [reflexivity
           | cbn; tauto
           | cbn [method_or_GET]; intros E;
             first [reflexivity | discriminate E]]
          | apply request_of_agrees;
            cbn [method_or_GET tool_annotations readOnlyHint
                 destructiveHint idempotentHint];
            [split; intros E; first [reflexivity | discriminate E]
            | intros E; first [reflexivity | discriminate E]
            | intros E; first [reflexivity | discriminate E]]]).
Qed.

(** Solves the construction of the path from printable arguments. *)
Ltac build_path H :=
  repeat first
    [ match goal with
      | |- context [lift (ToString (get ?args ?k))] =>
          let s := fresh "s" in
          let S := fresh "S" in
          assert (exists s, ToString (get args k) = Return s) as [s S]
            by (destruct (H k) as (s & S & _); [cbn [In]; tauto | eauto]);
          rewrite S, bind_lift_return
      end
    | match goal with
      | |- context [lift (qs ?l)] =>
          let s := fresh "s" in
          let S := fresh "S" in
          assert (exists s, qs l = Return s) as [s S]
            by (apply qs_returns_when_writable;
                repeat (apply Forall_cons;
                        [split; [reflexivity
                                | cbn [snd]; apply H; cbn [In]; tauto] |]);
                apply Forall_nil);
          rewrite S, bind_lift_return
      end ].

(** Every tool, on arguments whose declared parameters are printable. *)
Lemma tool_calls_once (tool : Tool) :
  In tool (tools env transport) ->
  forall args : Props,
    printable_arguments tool args ->
    exists r, calls_once_with (tool_handler tool args) r.
Proof.
  intros H args A. unfold printable_arguments in A.
  for_each_tool H
    ltac:(cbn [tool_params] in A; cbn [tool_handler];
          autounfold with handlers; cbv zeta;
          build_path A;
          eexists; intros log; rewrite respond_run; reflexivity).
Qed.

Lemma calls_once_not_thrown (m : M RenderedContent) (r : Request) :
  calls_once_with m r -> ~ throws_before_any_call m.
Proof.
  intros C [e T]. specialize (C []). rewrite (T []) in C. discriminate C.
Qed.

Lemma calls_once_issued (m : M RenderedContent) (r : Request) :
  calls_once_with m r -> issued m = [r].
Proof. intros C. exact (C []). Qed.

Lemma throws_issued (m : M RenderedContent) :
  throws_before_any_call m -> issued m = [].
Proof. intros [e T]. unfold issued. now rewrite (T []). Qed.

Lemma calls_once_unique (m : M RenderedContent) (r r' : Request) :
  calls_once_with m r -> calls_once_with m r' -> r = r'.
Proof.
  intros C C'. specialize (C []). specialize (C' []).
  rewrite C in C'. now injection C' as ->.
Qed.

(** X9.  The registry holds 43 tools and no two of them share a name, so
    no registration collides with an earlier one. *)
Theorem tool_names_unique :
  NoDup (map tool_name (tools env transport))
  /\ List.length (tools env transport) = 43%nat.
Proof.
  split; [| reflexivity].
  apply NoDup_by_nodup. vm_compute. reflexivity.
Qed.

(** X11.  Every registered tool, on any arguments, calls the service at
    most once, and what it sends does not depend on the calls made before:
    either it throws while building its path, before any call, or it sends
    exactly one request, under the base URL at a path that starts with a
    slash, with one of GET, POST, PATCH and DELETE, with the Authorization
    and Content-Type headers, and without a body when the method is GET or
    DELETE.  It sends that one request whenever the declared parameters
    hold printable values (a string form without a lone surrogate). *)
Theorem every_tool_sends_at_most_one_request (tool : Tool) :
  In tool (tools env transport) ->
  forall args : Props,
    (throws_before_any_call (tool_handler tool args)
     \/ exists r : Request,
          well_formed_request env r
          /\ calls_once_with (tool_handler tool args) r)
    /\ (printable_arguments tool args ->
        exists r : Request,
          well_formed_request env r
          /\ calls_once_with (tool_handler tool args) r).
Proof.
  intros H args.
  destruct (tool_shape tool H args) as [T | (r & (W & _) & C)].
  - split; [now left |]. intros A.
    destruct (tool_calls_once tool H args A) as [r C].
    now destruct (calls_once_not_thrown _ r C).
  - split; [right |]; eauto.
Qed.

(** X10.  The tools marked read-only are exactly those that send GET:
    whenever a tool sends a request, that request is a GET exactly when the
    tool is marked read-only, and a GET has no body.  A tool sends no
    request only when building its path throws, which cannot happen when
    the declared parameters hold printable values. *)
Theorem read_only_iff_GET (tool : Tool) :
  In tool (tools env transport) ->
  forall args : Props,
    (issued (tool_handler tool args) = []
     \/ exists r : Request,
          issued (tool_handler tool args) = [r]
          /\ (init_method (req_init r) = "GET"
              <-> readOnlyHint (tool_annotations tool) = Some true)
          /\ (init_method (req_init r) = "GET" ->
              init_body (req_init r) = None))
    /\ (printable_arguments tool args ->
        exists r : Request,
          issued (tool_handler tool args) = [r]
          /\ (init_method (req_init r) = "GET"
              <-> readOnlyHint (tool_annotations tool) = Some true)
          /\ (init_method (req_init r) = "GET" ->
              init_body (req_init r) = None)).
Proof.
  intros H args.
  destruct (tool_shape tool H args) as [T | (r & (_ & [G B] & _) & C)].
  - split; [left; now apply throws_issued |]. intros A.
    destruct (tool_calls_once tool H args A) as [r C].
    now destruct (calls_once_not_thrown _ r C).
  - apply calls_once_issued in C. split; [right |]; eauto.
Qed.

(** X12.  The hints agree with the methods in two more ways: whenever a
    tool sends a request, a DELETE comes from a tool marked destructive,
    and a tool marked as not idempotent sends a POST.  The tools marked as
    not idempotent send their POST on any arguments; the others send their
    request whenever the declared parameters hold printable values. *)
Theorem hints_agree_with_methods (tool : Tool) :
  In tool (tools env transport) ->
  forall args : Props,
    (issued (tool_handler tool args) = []
     \/ exists r : Request,
          issued (tool_handler tool args) = [r]
          /\ (init_method (req_init r) = "DELETE" ->
              destructiveHint (tool_annotations tool) = Some true)
          /\ (idempotentHint (tool_annotations tool) = Some false ->
              init_method (req_init r) = "POST"))
    /\ (printable_arguments tool args ->
        exists r : Request,
          issued (tool_handler tool args) = [r]
          /\ (init_method (req_init r) = "DELETE" ->
              destructiveHint (tool_annotations tool) = Some true)
          /\ (idempotentHint (tool_annotations tool) = Some false ->
              init_method (req_init r) = "POST"))
    /\ (idempotentHint (tool_annotations tool) = Some false ->
        exists r : Request,
          issued (tool_handler tool args) = [r]
          /\ init_method (req_init r) = "POST").
Proof.
  intros H args.
  split; [| split].
  - destruct (tool_shape tool H args) as [T | (r & (_ & _ & [D I]) & C)].
    + left. now apply throws_issued.
    + apply calls_once_issued in C. right; eauto.
  - intros A.
    destruct (tool_calls_once tool H args A) as [r C].
    destruct (tool_shape tool H args) as [T | (r' & (_ & _ & [D I]) & C')].
    + now destruct (calls_once_not_thrown _ r C).
    + apply calls_once_issued in C'. eauto.
  - intros I.
    for_each_tool H
      ltac:(cbn [tool_annotations idempotentHint] in I; try discriminate I;
            cbn [tool_handler]; autounfold with handlers;
            eexists; unfold issued; rewrite respond_run;
            split; reflexivity).
Qed.

(** X13.  What a read-only tool sends depends only on the parameters its
    input schema declares: two argument objects that agree on them are
    handled alike, so no undeclared argument reaches the URL. *)
Theorem read_only_tools_read_declared_parameters (tool : Tool) :
  In tool (tools env transport) ->
  readOnlyHint (tool_annotations tool) = Some true ->
  forall args args' : Props,
    (forall k, In k (tool_params tool) -> get args k = get args' k) ->
    tool_handler tool args = tool_handler tool args'.
Proof.
  intros H R args args' A.
  for_each_tool H
    ltac:(cbn [tool_annotations readOnlyHint] in R; try discriminate R;
          cbn [tool_params] in A; cbn [tool_handler];
          autounfold with handlers;
          repeat match goal with
                 | |- context [get args ?k] =>
                     rewrite (A k) by (cbn [In]; tauto)
                 end;
          reflexivity).
Qed.

End Registry.

Lemma list_contacts_tool_registered :
  In list_contacts_tool (tools sample_env transport_down).
Proof. left. reflexivity. Qed.

Lemma delete_note_tool_registered :
  In delete_note_tool (tools sample_env transport_down).
Proof. unfold tools. cbn [In]. do 26 right. left. reflexivity. Qed.

Lemma delete_note_arguments_printable :
  printable_arguments delete_note_tool args_delete_permanent.
Proof.
  intros k H. cbn [tool_params delete_note_tool In] in H.
  destruct H as [<- | [<- | []]]; eexists; split; reflexivity.
Qed.

Lemma list_contacts_arguments_printable :
  printable_arguments list_contacts_tool args_list_contacts.
Proof.
  intros k H. cbn [tool_params list_contacts_tool In] in H.
  destruct H as [<- | [<- | [<- | [<- | [<- | []]]]]];
    eexists; split; reflexivity.
Qed.

Lemma every_tool_sends_at_most_one_request_witness :
  In delete_note_tool (tools sample_env transport_down)
  /\ printable_arguments delete_note_tool args_delete_permanent
  /\ exists r : Request,
       well_formed_request sample_env r
       /\ calls_once_with (tool_handler delete_note_tool args_delete_permanent)
                          r.
Proof.
  split; [exact delete_note_tool_registered |].
  split; [exact delete_note_arguments_printable |].
  exact (proj2 (every_tool_sends_at_most_one_request sample_env transport_down
                  delete_note_tool delete_note_tool_registered
                  args_delete_permanent)
               delete_note_arguments_printable).
Defined.

Lemma read_only_iff_GET_witness :
  In list_contacts_tool (tools sample_env transport_down)
  /\ printable_arguments list_contacts_tool args_list_contacts
  /\ exists r : Request,
       issued (tool_handler list_contacts_tool args_list_contacts) = [r]
       /\ (init_method (req_init r) = "GET"
           <-> readOnlyHint (tool_annotations list_contacts_tool) = Some true)
       /\ (init_method (req_init r) = "GET" ->
           init_body (req_init r) = None).
Proof.
  split; [exact list_contacts_tool_registered |].
  split; [exact list_contacts_arguments_printable |].
  exact (proj2 (read_only_iff_GET sample_env transport_down
                  list_contacts_tool list_contacts_tool_registered
                  args_list_contacts)
               list_contacts_arguments_printable).
Defined.

Lemma hints_agree_with_methods_witness :
  In delete_note_tool (tools sample_env transport_down)
  /\ printable_arguments delete_note_tool args_delete_permanent
  /\ exists r : Request,
       issued (tool_handler delete_note_tool args_delete_permanent) = [r]
       /\ (init_method (req_init r) = "DELETE" ->
           destructiveHint (tool_annotations delete_note_tool) = Some true)
       /\ (idempotentHint (tool_annotations delete_note_tool) = Some false ->
           init_method (req_init r) = "POST").
Proof.
  split; [exact delete_note_tool_registered |].
  split; [exact delete_note_arguments_printable |].
  exact (proj1 (proj2 (hints_agree_with_methods sample_env transport_down
                         delete_note_tool delete_note_tool_registered
                         args_delete_permanent))
               delete_note_arguments_printable).
Defined.

Lemma read_only_tools_read_declared_parameters_witness :
  In list_contacts_tool (tools sample_env transport_down)
  /\ readOnlyHint (tool_annotations list_contacts_tool) = Some true
  /\ (forall k, In k (tool_params list_contacts_tool) ->
                get args_list_contacts k
                = get (("page", VNumber 3) :: args_list_contacts) k)
  /\ tool_handler list_contacts_tool args_list_contacts
     = tool_handler list_contacts_tool
         (("page", VNumber 3) :: args_list_contacts).
Proof.
  assert (A : forall k, In k (tool_params list_contacts_tool) ->
                        get args_list_contacts k
                        = get (("page", VNumber 3) :: args_list_contacts) k).
  { intros k H. cbn [tool_params list_contacts_tool In] in H.
    destruct H as [<- | [<- | [<- | [<- | [<- | []]]]]]; reflexivity. }
  split; [exact list_contacts_tool_registered |].
  split; [reflexivity |]. split; [exact A |].
  exact (read_only_tools_read_declared_parameters sample_env transport_down
           list_contacts_tool list_contacts_tool_registered eq_refl
           args_list_contacts (("page", VNumber 3) :: args_list_contacts) A).
Defined.

(** ** Families of handlers *)

Section Families.

Variable env : Env.
Variable transport : string -> RequestInit -> Completion Response.

Lemma whole_object_sent (params : Props) (path encoded : string) :
  JSON_stringify (VObject params) = Some encoded ->
  issued (respond env transport path (Some "POST") (VObject params))
  = [mkRequest (API_BASE env ++ path)
               (mkInit "POST" (request_headers env) (Some encoded))].
Proof.
  intros E. unfold issued. rewrite respond_run. cbn [snd List.app].
  unfold request_of. cbn [method_or_GET].
  rewrite build_init_object by reflexivity. now rewrite E.
Qed.

(** X14.  The five create tools and [update_day] send one POST to a fixed
    path whose body is the JSON encoding of the whole argument object,
    nothing taken out (an [id] among the arguments stays in the body);
    the body is there even for an empty object, as the two characters
    of an empty JSON object. *)
Theorem create_tools_post_whole_object (params : Props) :
  exists encoded : string,
    JSON_stringify (VObject params) = Some encoded
    /\ (params = [] -> encoded = "{}")
    /\ forall (h : Handler) (path : string),
         In (h, path)
            [(create_contact env transport, "/contacts");
             (create_company env transport, "/companies");
             (create_entry env transport, "/entries");
             (create_task env transport, "/tasks");
             (create_note env transport, "/notes");
             (update_day env transport, "/days")] ->
         issued (h params)
         = [mkRequest (API_BASE env ++ path)
                      (mkInit "POST" (request_headers env) (Some encoded))].
Proof.
  destruct (SerializeJSON_defined "" "" (VObject params) eq_refl)
    as [encoded E].
  exists encoded. split; [exact E |]. split.
  - intros ->. cbn in E. congruence.
  - intros h path H. cbn [In] in H.
    repeat (destruct H as [[= <- <-] | H];
            [autounfold with handlers; now apply whole_object_sent |]).
    contradiction.
Qed.

(** X15.  The tools that take only an [id] send one request without a
    body, the POST actions included, at a path made from the [id] alone:
    no other argument has any effect. *)
Theorem id_only_tools_send_no_body (args : Props) (id : string) :
  get args "id" = VString id ->
  forall (h : Handler) (method path : string),
    In (h, method, path)
       [(get_company env transport, "GET", "/companies/" ++ id);
        (get_tag_items env transport, "GET", "/tags/" ++ id ++ "/items");
        (delete_contact env transport, "DELETE", "/contacts/" ++ id);
        (delete_entry env transport, "DELETE", "/entries/" ++ id);
        (delete_task env transport, "DELETE", "/tasks/" ++ id);
        (complete_task env transport, "POST", "/tasks/" ++ id ++ "/complete");
        (uncomplete_task env transport, "POST",
         "/tasks/" ++ id ++ "/uncomplete");
        (pin_note env transport, "POST", "/notes/" ++ id ++ "/pin");
        (archive_note env transport, "POST", "/notes/" ++ id ++ "/archive");
        (restore_note env transport, "POST", "/notes/" ++ id ++ "/restore")] ->
    sends_without_body env method path (issued (h args)).
Proof.
  intros I h method path H. cbn [In] in H.
  repeat (destruct H as [[= <- <- <-] | H];
          [autounfold with handlers; cbv zeta; rewrite I; cbn [ToString];
           rewrite bind_lift_return;
           unfold issued, sends_without_body; rewrite respond_run;
           reflexivity |]).
  contradiction.
Qed.

(** X16.  A search whose query is the empty string is sent without any
    [q] parameter: [search_contacts] and [search_companies] then call the
    bare search path, and so does [search] when [type] and [limit] are
    not given. *)
Theorem empty_search_sends_no_query (args : Props) :
  get args "q" = VString "" ->
  sends_without_body env "GET" "/contacts/search"
    (issued (search_contacts env transport args))
  /\ sends_without_body env "GET" "/companies/search"
       (issued (search_companies env transport args))
  /\ (get args "type" = VUndefined -> get args "limit" = VUndefined ->
      sends_without_body env "GET" "/search"
        (issued (search env transport args))).
Proof.
  intros Q.
  unfold search_contacts, search_companies, search, issued,
    sends_without_body.
  cbv zeta. rewrite Q. repeat split.
  - change (qs [("q", VString "")]) with (@Return string "").
    rewrite bind_lift_return. now rewrite respond_run.
  - change (qs [("q", VString "")]) with (@Return string "").
    rewrite bind_lift_return. now rewrite respond_run.
  - intros -> ->.
    change (qs [("q", VString ""); ("type", VUndefined);
                ("limit", VUndefined)])
      with (@Return string "").
    rewrite bind_lift_return. now rewrite respond_run.
Qed.

End Families.

Lemma id_only_tools_send_no_body_witness :
  get args_delete_permanent "id" = VString sample_id
  /\ sends_without_body sample_env "POST"
       ("/notes/" ++ sample_id ++ "/archive")
       (issued (archive_note sample_env transport_down args_delete_permanent)).
Proof.
  split; [reflexivity |].
  apply (id_only_tools_send_no_body sample_env transport_down
           args_delete_permanent sample_id eq_refl).
  cbn [In]. do 8 right. left. reflexivity.
Defined.

Lemma empty_search_sends_no_query_witness :
  get args_search_empty "q" = VString ""
  /\ sends_without_body sample_env "GET" "/contacts/search"
       (issued (search_contacts sample_env transport_down args_search_empty)).
Proof.
  split; [reflexivity |].
  exact (proj1 (empty_search_sends_no_query sample_env transport_down
                  args_search_empty eq_refl)).
Defined.

(** ** Two edges *)

Lemma omit_only_key (k : string) (args : Props) :
  (forall k' v, In (k', v) args -> k' = k) -> omit k args = [].
Proof.
  unfold omit. induction args as [| [k0 v0] args IH]; intros H; cbn;
    [reflexivity |].
  rewrite (H k0 v0 (or_introl eq_refl)), String.eqb_refl. cbn.
  apply IH. intros k' v Hin. apply (H k' v). now right.
Qed.

(** X17.  An update that is given nothing to change is sent all the same:
    when the arguments hold only the [id], each of the five update tools
    sends a PATCH whose body is the empty JSON object. *)
Theorem update_without_fields_sends_empty_object
        (env : Env) (transport : string -> RequestInit -> Completion Response)
        (args : Props) (id : string) :
  get args "id" = VString id ->
  (forall k v, In (k, v) args -> k = "id") ->
  forall (h : Handler) (path : string),
    In (h, path)
       [(update_contact env transport, "/contacts/" ++ id);
        (update_company env transport, "/companies/" ++ id);
        (update_entry env transport, "/entries/" ++ id);
        (update_task env transport, "/tasks/" ++ id);
        (update_note env transport, "/notes/" ++ id)] ->
    issued (h args)
    = [mkRequest (API_BASE env ++ path)
                 (mkInit "PATCH" (request_headers env) (Some "{}"))].
Proof.
  intros I O h path H. cbn [In] in H.
  repeat (destruct H as [[= <- <-] | H];
          [autounfold with handlers; cbv zeta;
           rewrite I, (omit_only_key "id" args O);
           cbn [ToString]; rewrite bind_lift_return;
           unfold issued; rewrite respond_run;
           reflexivity |]).
  contradiction.
Qed.

Lemma update_without_fields_sends_empty_object_witness :
  get [("id", VString sample_id)] "id" = VString sample_id
  /\ issued (update_note sample_env transport_down [("id", VString sample_id)])
     = [mkRequest (API_BASE sample_env ++ "/notes/" ++ sample_id)
                  (mkInit "PATCH" (request_headers sample_env) (Some "{}"))].
Proof.
  split; [reflexivity |].
  apply (update_without_fields_sends_empty_object sample_env transport_down
           [("id", VString sample_id)] sample_id eq_refl).
  - intros k v [[= <- <-] | []]. reflexivity.
  - cbn [In]. do 4 right. left. reflexivity.
Defined.

(** X18.  A body that is not an object and not null (an array, a string,
    a number, a boolean) has no [error] and no [data] to read: it is
    rendered whole, as its own indented JSON. *)
Theorem bare_value_rendered_whole (result : value) :
  nullish result = false ->
  (forall props, result <> VObject props) ->
  exists s : string,
    JSON_stringify_pretty result = Some s
    /\ toContent result = Return (one_text s).
Proof.
  intros N O.
  assert (M : forall k, member result k = VUndefined)
    by (intros k; destruct result; try reflexivity; now destruct (O props)).
  rewrite toContent_success by (rewrite ?M; auto).
  rewrite M. cbn [js_coalesce nullish].
  destruct (SerializeJSON_defined "  " "" result) as [s E].
  { destruct result; try reflexivity; discriminate N. }
  exists s. unfold JSON_stringify_pretty. now rewrite E.
Qed.

Lemma bare_value_rendered_whole_witness :
  nullish (VArray [VNumber 1; VNumber 2]) = false
  /\ toContent (VArray [VNumber 1; VNumber 2])
     = Return (one_text ("[" ++ nl ++ "  1," ++ nl ++ "  2" ++ nl ++ "]")).
Proof.
  split; [reflexivity |].
  destruct (bare_value_rendered_whole (VArray [VNumber 1; VNumber 2]) eq_refl)
    as [s [E R]]; [discriminate |].
  rewrite R. cbn in E. injection E as <-. reflexivity.
Defined.
